(** * Banking service: ledger operations of [banking-service/crud.py]

    A shallow embedding of the account table ([models.py]) and of the six
    coroutines of [crud.py], followed by the properties of the ledger.

    Modelling choices.
    - [decimal.Decimal] is the triple (sign, coefficient, exponent) of the
      Python implementation; only finite values occur (the request models
      are validated by pydantic).  Addition and subtraction are exact, as
      they are in Python for results of up to 28 significant digits.
    - The [AsyncSession] is the table [bank_accounts] together with the
      session's unit of work (objects added with [db.add], objects whose
      attributes were assigned).  [db.commit] flushes the unit of work and
      checks the constraints declared in [models.py]; [db.refresh] reads the
      row back by primary key.
    - The column [balance] is [Numeric(precision=10, scale=2)]: an INSERT or
      UPDATE rounds the value to two decimals (ties away from zero) and
      fails with a numeric overflow, which reaches the caller as
      [DBAPIError], when the rounded value is 10^8 or more in magnitude.
      What [db.refresh] reads back is the rounded value.
    - The ORM sends no UPDATE when the value assigned to [balance] equals
      the loaded one; the model sends it.  For calls that run one after the
      other the column holds the same value either way; for calls in
      flight the statements below say where it matters.
    - Every request runs its coroutine in a session of its own (the
      [get_db] dependency of the services of this repository opens one per
      request); the table is what requests share.
    - [created_at] and [updated_at] are filled by column defaults inside the
      ORM on every INSERT and UPDATE; [crud.py] neither reads nor assigns
      them and they are not part of the record below.
    - [uuid.uuid4] takes its 16 random bytes as an argument.
    - [logger.info] only writes to the log and is left out. *)

From Stdlib Require Import ZArith NArith List String Ascii Bool Lia.
From Stdlib Require Import DecimalString.
Import ListNotations.
Local Open Scope string_scope.
Local Open Scope Z_scope.

(** ** [decimal.Decimal] *)

Module decimal.

Record Decimal : Type := mkDecimal {
  d_sign : bool;   (* True for negative numbers, also for -0 *)
  d_int  : N;      (* the coefficient *)
  d_exp  : Z       (* the exponent: value = (-1)^sign * int * 10^exp *)
}.

(** The signed coefficient. *)
Definition signed (d : Decimal) : Z :=
  if d_sign d then - Z.of_N (d_int d) else Z.of_N (d_int d).

(** The signed coefficient the value has at the exponent [e <= d_exp d]. *)
Definition scaled (d : Decimal) (e : Z) : Z :=
  signed d * 10 ^ (d_exp d - e).

Definition is_zero (d : Decimal) : bool := N.eqb (d_int d) 0.

(** Builds the result of an exact operation from its integer value [z] at
    exponent [e]; [zs] is the sign a zero result takes. *)
Definition of_scaled (z : Z) (e : Z) (zs : bool) : Decimal :=
  {| d_sign := if z =? 0 then zs else z <? 0;
     d_int := Z.abs_N z;
     d_exp := e |}.

(** [Decimal.__add__]: the result has the smaller exponent; a zero result is
    negative only when both operands are negative zeros. *)
Definition add (a b : Decimal) : Decimal :=
  let e := Z.min (d_exp a) (d_exp b) in
  of_scaled (scaled a e + scaled b e) e
            (is_zero a && is_zero b && d_sign a && d_sign b).

Definition copy_negate (a : Decimal) : Decimal :=
  {| d_sign := negb (d_sign a); d_int := d_int a; d_exp := d_exp a |}.


(** [Decimal.__sub__] is [self.__add__(other.copy_negate())]. *)
Definition sub (a b : Decimal) : Decimal := add a (copy_negate b).

(** [Decimal._cmp]: comparison of the values. *)
Definition cmp (a b : Decimal) : comparison :=
  let e := Z.min (d_exp a) (d_exp b) in
  scaled a e ?= scaled b e.

Definition lt (a b : Decimal) : bool :=
  match cmp a b with Lt => true | _ => false end.
Definition le (a b : Decimal) : bool :=
  match cmp a b with Gt => false | _ => true end.
Definition ge (a b : Decimal) : bool := le b a.

(** *** [Decimal.__str__] *)

Definition digits (n : N) : string := NilZero.string_of_uint (N.to_uint n).

Fixpoint zeros (n : nat) : string :=
  match n with O => "" | S k => String "0" (zeros k) end.

(** ["%+d" % z] *)
Definition signed_int (z : Z) : string :=
  (if z <? 0 then "-" else "+") ++ digits (Z.abs_N z).

Definition str (d : Decimal) : string :=
  let sign := if d_sign d then "-" else "" in
  let int := digits (d_int d) in
  let len := Z.of_nat (String.length int) in
  let leftdigits := d_exp d + len in
  let dotplace :=
    if (d_exp d <=? 0) && (-6 <? leftdigits) then leftdigits else 1 in
  let '(intpart, fracpart) :=
    if dotplace <=? 0 then
      ("0", "." ++ zeros (Z.to_nat (- dotplace)) ++ int)
    else if len <=? dotplace then
      (int ++ zeros (Z.to_nat (dotplace - len)), "")
    else
      (substring 0 (Z.to_nat dotplace) int,
       "." ++ substring (Z.to_nat dotplace) (Z.to_nat (len - dotplace)) int) in
  let exp :=
    if leftdigits =? dotplace then ""
    else "E" ++ signed_int (leftdigits - dotplace) in
  sign ++ intpart ++ fracpart ++ exp.

End decimal.

Import decimal.

(** [Decimal("0")] and [Decimal("1000.00")], the two literals of the source. *)
Definition Decimal_0 : Decimal := mkDecimal false 0 0.
Definition Decimal_1000_00 : Decimal := mkDecimal false 100000 (-2).


(** ** [uuid.uuid4] and the string methods used by [create_account] *)

Module uuid.

(** A UUID is its 128-bit integer [int]. *)
Record UUID : Type := mkUUID { int : N }.

(** [UUID(bytes=os.urandom(16), version=4)]: [r] is the integer of the 16
    random bytes; the variant and version bits are forced. *)
Definition uuid4 (r : N) : UUID :=
  let i := N.modulo r (2 ^ 128) in
  let i := N.ldiff i (N.shiftl 0xc000 48) in
  let i := N.lor i (N.shiftl 0x8000 48) in
  let i := N.ldiff i (N.shiftl 0xf000 64) in
  let i := N.lor i (N.shiftl 4 76) in
  mkUUID i.

Definition hexdigit (d : N) : ascii :=
  nth (N.to_nat d) (list_ascii_of_string "0123456789abcdef") "0"%char.

(** The [k] low hexadecimal digits of [n], most significant first. *)
Fixpoint hex_digits (k : nat) (n : N) : string :=
  match k with
  | O => ""
  | S k' => String (hexdigit (N.modulo (N.shiftr n (4 * N.of_nat k')) 16))
                   (hex_digits k' n)
  end.

(** [UUID.hex]: ['%032x' % self.int]. *)
Definition hex (u : UUID) : string := hex_digits 32 (int u).

(** [UUID.__str__]: the digits in groups of 8-4-4-4-12. *)
Definition to_str (u : UUID) : string :=
  let h := hex u in
  substring 0 8 h ++ "-" ++ substring 8 4 h ++ "-" ++ substring 12 4 h
    ++ "-" ++ substring 16 4 h ++ "-" ++ substring 20 12 h.

End uuid.

(** [str.upper] on ASCII text. *)
Definition upper_char (c : ascii) : ascii :=
  let n := nat_of_ascii c in
  if (Nat.leb 97 n && Nat.leb n 122)%bool then ascii_of_nat (n - 32) else c.

Fixpoint upper (s : string) : string :=
  match s with
  | EmptyString => EmptyString
  | String c s' => String (upper_char c) (upper s')
  end.

(** [str.isalnum] on one ASCII character. *)
Definition isalnum_char (c : ascii) : bool :=
  let n := nat_of_ascii c in
  ((Nat.leb 48 n && Nat.leb n 57) || (Nat.leb 65 n && Nat.leb n 90)
   || (Nat.leb 97 n && Nat.leb n 122))%bool.

Fixpoint isalnum_all (s : string) : bool :=
  match s with
  | EmptyString => true
  | String c s' => isalnum_char c && isalnum_all s'
  end.

(** ** [models.py] *)

Module BankAccount.

(** The columns of [bank_accounts] that [crud.py] reads or writes. *)
Record t : Type := mk {
  id : string;              (* primary key *)
  user_id : string;         (* unique *)
  account_number : string;  (* unique *)
  balance : Decimal;
  currency : string;
  is_active : bool
}.

Definition with_balance (a : t) (b : Decimal) : t :=
  {| id := id a; user_id := user_id a; account_number := account_number a;
     balance := b; currency := currency a; is_active := is_active a |}.

End BankAccount.

Module BankAccountCreate.

Record t : Type := mk {
  user_id : string;
  initial_balance : Decimal;
  currency : string
}.

(** The pydantic constructor with its field defaults. *)
Definition new (user_id : string) (initial_balance : option Decimal)
    (currency : option string) : t :=
  {| user_id := user_id;
     initial_balance :=
       match initial_balance with Some b => b | None => Decimal_1000_00 end;
     currency := match currency with Some c => c | None => "USD" end |}.

End BankAccountCreate.

(** ** The session *)

Inductive exn : Type :=
| MultipleResultsFound   (* scalar_one_or_none on more than one row *)
| IntegrityError         (* a primary key or unique constraint is violated *)
| InvalidRequestError    (* refresh of an object that has no row *)
| DBAPIError.            (* numeric field overflow *)

Inductive result (A : Type) : Type :=
| Ok (a : A)
| Raise (e : exn).
Arguments Ok {A} a.
Arguments Raise {A} e.

(** *** The column type [Numeric(precision=10, scale=2)] *)

(** [n / 10^k] rounded to an integer, ties away from zero. *)
Definition round_half_away (n k : Z) : Z :=
  Z.sgn n * ((Z.abs n + 5 * 10 ^ (k - 1)) / 10 ^ k).

(** The value of [d] in hundredths, rounded when [d] has more than two
    fractional digits. *)
Definition hundredths (d : Decimal) : Z :=
  if -2 <=? d_exp d then scaled d (-2)
  else round_half_away (signed d) (- 2 - d_exp d).

(** [d] has at most two fractional digits. *)
Definition in_cents (d : Decimal) : bool := -2 <=? d_exp d.

(** [d], rounded, has at most eight digits before the point. *)
Definition fits_column (d : Decimal) : bool :=
  Z.abs (hundredths d) <? 10 ^ 10.

(** What the column holds of [d], and what is read back. *)
Definition stored_as (d : Decimal) : Decimal :=
  {| d_sign := hundredths d <? 0;
     d_int := Z.abs_N (hundredths d);
     d_exp := -2 |}.

Definition numeric_10_2 (d : Decimal) : result Decimal :=
  if fits_column d then Ok (stored_as d) else Raise DBAPIError.

(** What a flush has to write. *)
Inductive pending : Type :=
| New (a : BankAccount.t)      (* db.add(a) *)
| Dirty (a : BankAccount.t).   (* a.balance was assigned *)

Record AsyncSession : Type := mkSession {
  table : list BankAccount.t;       (* the rows of bank_accounts *)
  unit_of_work : list pending
}.

(** A request starts with a session of its own over the current table. *)
Definition session_of (rows : list BankAccount.t) : AsyncSession :=
  {| table := rows; unit_of_work := [] |}.

(** A coroutine over the session: a result or an exception, and the session
    it leaves behind. *)
Definition M (A : Type) : Type := AsyncSession -> result A * AsyncSession.

Definition ret {A} (a : A) : M A := fun s => (Ok a, s).

Definition raise {A} (e : exn) : M A := fun s => (Raise e, s).

Definition bind {A B} (m : M A) (k : A -> M B) : M B :=
  fun s =>
    match m s with
    | (Ok a, s') => k a s'
    | (Raise e, s') => (Raise e, s')
    end.

Notation "x <- m ;; k" := (bind m (fun x => k))
  (at level 61, m at next level, right associativity).
Notation "m ;;; k" := (bind m (fun _ => k))
  (at level 61, right associativity).

(** [select(BankAccount).where(BankAccount.user_id == user_id)] *)
Definition select_by_user_id (user_id : string) (rows : list BankAccount.t)
  : list BankAccount.t :=
  filter (fun r => String.eqb (BankAccount.user_id r) user_id) rows.

(** [select(BankAccount).where(BankAccount.id == account_id)] *)
Definition select_by_id (account_id : string) (rows : list BankAccount.t)
  : list BankAccount.t :=
  filter (fun r => String.eqb (BankAccount.id r) account_id) rows.

(** [await db.execute(query)]: the rows the query selects. *)
Definition db_execute
    (query : list BankAccount.t -> list BankAccount.t)
  : M (list BankAccount.t) :=
  fun s => (Ok (query (table s)), s).

(** [Result.scalar_one_or_none] *)
Definition scalar_one_or_none (rows : list BankAccount.t)
  : M (option BankAccount.t) :=
  match rows with
  | [] => ret None
  | [r] => ret (Some r)
  | _ => raise MultipleResultsFound
  end.

(** [db.add(account)] *)
Definition db_add (account : BankAccount.t) : M unit :=
  fun s => (Ok tt, {| table := table s;
                      unit_of_work := unit_of_work s ++ [New account] |}).

(** [account.balance = value] on an object of the session: the object is
    marked dirty. *)
Definition set_balance (account : BankAccount.t) (value : Decimal)
  : M BankAccount.t :=
  fun s =>
    let account' := BankAccount.with_balance account value in
    (Ok account', {| table := table s;
                     unit_of_work := unit_of_work s ++ [Dirty account'] |}).

(** The constraints of [models.py] that an INSERT checks. *)
Definition conflicts (a : BankAccount.t) (rows : list BankAccount.t) : bool :=
  existsb (fun r =>
             String.eqb (BankAccount.id r) (BankAccount.id a)
             || String.eqb (BankAccount.user_id r) (BankAccount.user_id a)
             || String.eqb (BankAccount.account_number r)
                           (BankAccount.account_number a)) rows.

(** [UPDATE bank_accounts SET balance = ? WHERE id = ?], once the value has
    passed the column type. *)
Definition update_balance (a : BankAccount.t) (rows : list BankAccount.t)
  : list BankAccount.t :=
  map (fun r =>
         if String.eqb (BankAccount.id r) (BankAccount.id a)
         then BankAccount.with_balance r (BankAccount.balance a)
         else r) rows.

Fixpoint flush (work : list pending) (rows : list BankAccount.t)
  : result (list BankAccount.t) :=
  match work with
  | [] => Ok rows
  | New a :: work' =>
      match numeric_10_2 (BankAccount.balance a) with
      | Raise e => Raise e
      | Ok b =>
          if conflicts a rows then Raise IntegrityError
          else flush work' (rows ++ [BankAccount.with_balance a b])
      end
  | Dirty a :: work' =>
      match numeric_10_2 (BankAccount.balance a) with
      | Raise e => Raise e
      | Ok b => flush work' (update_balance (BankAccount.with_balance a b) rows)
      end
  end.

(** [await db.commit()]: all of the unit of work is written, or none. *)
Definition db_commit : M unit :=
  fun s =>
    match flush (unit_of_work s) (table s) with
    | Ok rows => (Ok tt, {| table := rows; unit_of_work := [] |})
    | Raise e => (Raise e, {| table := table s; unit_of_work := [] |})
    end.

(** [await db.refresh(account)]: the row is read back by primary key. *)
Definition db_refresh (account : BankAccount.t) : M BankAccount.t :=
  fun s =>
    match find (fun r => String.eqb (BankAccount.id r) (BankAccount.id account))
               (table s) with
    | Some r => (Ok r, s)
    | None => (Raise InvalidRequestError, s)
    end.

(** ** [crud.py] *)

Definition create_account (r1 r2 : N) (account_data : BankAccountCreate.t)
  : M BankAccount.t :=
  let account_id := uuid.to_str (uuid.uuid4 r1) in
  let account_number :=
    "ACC" ++ upper (substring 0 10 (uuid.hex (uuid.uuid4 r2))) in
  let account :=
    {| BankAccount.id := account_id;
       BankAccount.user_id := BankAccountCreate.user_id account_data;
       BankAccount.account_number := account_number;
       BankAccount.balance := BankAccountCreate.initial_balance account_data;
       BankAccount.currency := BankAccountCreate.currency account_data;
       BankAccount.is_active := true |} in
  db_add account ;;;
  db_commit ;;;
  account <- db_refresh account ;;
  ret account.

Definition get_account_by_user_id (user_id : string)
  : M (option BankAccount.t) :=
  result <- db_execute (select_by_user_id user_id) ;;
  scalar_one_or_none result.

Definition get_account_by_id (account_id : string)
  : M (option BankAccount.t) :=
  result <- db_execute (select_by_id account_id) ;;
  scalar_one_or_none result.

Definition check_balance (user_id : string) (amount : Decimal)
  : M (bool * string) :=
  account <- get_account_by_user_id user_id ;;
  match account with
  | None => ret (false, "Account not found")
  | Some account =>
      if negb (BankAccount.is_active account) then
        ret (false, "Account is inactive")
      else if lt (BankAccount.balance account) amount then
        ret (false,
             "Insufficient balance. Available: "
               ++ str (BankAccount.balance account)
               ++ ", Required: " ++ str amount)
      else ret (true, "Sufficient balance")
  end.

Definition debit_account (user_id : string) (amount : Decimal)
  : M (bool * string * Decimal) :=
  account <- get_account_by_user_id user_id ;;
  match account with
  | None => ret (false, "Account not found", Decimal_0)
  | Some account =>
      if negb (BankAccount.is_active account) then
        ret (false, "Account is inactive", BankAccount.balance account)
      else if lt (BankAccount.balance account) amount then
        ret (false,
             "Insufficient balance. Available: "
               ++ str (BankAccount.balance account)
               ++ ", Required: " ++ str amount,
             BankAccount.balance account)
      else
        (* Deduct the amount *)
        account <- set_balance account
                     (sub (BankAccount.balance account) amount) ;;
        db_commit ;;;
        account <- db_refresh account ;;
        ret (true, "Transaction successful", BankAccount.balance account)
  end.

Definition credit_account (user_id : string) (amount : Decimal)
  : M (bool * string * Decimal) :=
  account <- get_account_by_user_id user_id ;;
  match account with
  | None => ret (false, "Account not found", Decimal_0)
  | Some account =>
      if negb (BankAccount.is_active account) then
        ret (false, "Account is inactive", BankAccount.balance account)
      else
        (* Add the amount *)
        account <- set_balance account
                     (add (BankAccount.balance account) amount) ;;
        db_commit ;;;
        account <- db_refresh account ;;
        ret (true, "Transaction successful", BankAccount.balance account)
  end.

(** ** Requests *)

(** A request runs its coroutine in a session of its own over the current
    table and leaves the table behind. *)
Definition serve {A} (m : M A) (rows : list BankAccount.t)
  : result A * list BankAccount.t :=
  let '(r, s) := m (session_of rows) in (r, table s).

(** The account bound to [user_id], as [get_account_by_user_id] sees it. *)
Definition lookup (user_id : string) (rows : list BankAccount.t)
  : result (option BankAccount.t) :=
  fst (serve (get_account_by_user_id user_id) rows).

Inductive operation : Type :=
| Debit (amount : Decimal)
| Credit (amount : Decimal).

Definition perform (user_id : string) (op : operation)
  : M (bool * string * Decimal) :=
  match op with
  | Debit amount => debit_account user_id amount
  | Credit amount => credit_account user_id amount
  end.

(** The tables after each of a sequence of requests on one account. *)
Fixpoint history (user_id : string) (ops : list operation)
    (rows : list BankAccount.t) : list (list BankAccount.t) :=
  match ops with
  | [] => []
  | op :: ops' =>
      let rows' := snd (serve (perform user_id op) rows) in
      rows' :: history user_id ops' rows'
  end.

(** [balance >= 0] holds for the account of [user_id]. *)
Definition balance_nonneg (user_id : string) (rows : list BankAccount.t)
  : Prop :=
  exists a, lookup user_id rows = Ok (Some a)
            /\ ge (BankAccount.balance a) Decimal_0 = true.

(** A credit of a negative amount. *)
Definition negative_credit (op : operation) : bool :=
  match op with
  | Debit _ => false
  | Credit amount => lt amount Decimal_0
  end.

(** ** Two [debit_account] calls in flight

    A coroutine gives up control at its [await]s only.  [debit_account] has
    three: the SELECT of [get_account_by_user_id], [db.commit()] and
    [db.refresh(account)].  Each call has a session of its own; the table is
    shared, and the database runs each statement as one step. *)

Inductive debit_task : Type :=
| Called (user_id : string) (amount : Decimal)
| AwaitingCommit (work : list pending) (account : BankAccount.t)
| AwaitingRefresh (work : list pending) (account : BankAccount.t)
| Returned (r : result (bool * string * Decimal)).

(** Runs the call up to its next [await] (or to its return) on the shared
    table. *)
Definition resume (t : debit_task) (rows : list BankAccount.t)
  : debit_task * list BankAccount.t :=
  match t with
  | Called user_id amount =>
      match get_account_by_user_id user_id (session_of rows) with
      | (Raise e, s) => (Returned (Raise e), table s)
      | (Ok None, s) =>
          (Returned (Ok (false, "Account not found", Decimal_0)), table s)
      | (Ok (Some account), s) =>
          if negb (BankAccount.is_active account) then
            (Returned (Ok (false, "Account is inactive",
                           BankAccount.balance account)), table s)
          else if lt (BankAccount.balance account) amount then
            (Returned (Ok (false,
                           "Insufficient balance. Available: "
                             ++ str (BankAccount.balance account)
                             ++ ", Required: " ++ str amount,
                           BankAccount.balance account)), table s)
          else
            match set_balance account
                    (sub (BankAccount.balance account) amount) s with
            | (Ok account, s') =>
                (AwaitingCommit (unit_of_work s') account, table s')
            | (Raise e, s') => (Returned (Raise e), table s')
            end
      end
  | AwaitingCommit work account =>
      match db_commit {| table := rows; unit_of_work := work |} with
      | (Ok _, s) => (AwaitingRefresh (unit_of_work s) account, table s)
      | (Raise e, s) => (Returned (Raise e), table s)
      end
  | AwaitingRefresh work account =>
      match db_refresh account {| table := rows; unit_of_work := work |} with
      | (Ok account, s) =>
          (Returned (Ok (true, "Transaction successful",
                         BankAccount.balance account)), table s)
      | (Raise e, s) => (Returned (Raise e), table s)
      end
  | Returned r => (Returned r, rows)
  end.

Record flight : Type := mkFlight {
  shared : list BankAccount.t;
  first : debit_task;
  second : debit_task
}.

(** One step of the event loop: the first ([true]) or the second call is
    resumed. *)
Definition schedule_one (which : bool) (c : flight) : flight :=
  if which then
    let '(t, rows) := resume (first c) (shared c) in
    {| shared := rows; first := t; second := second c |}
  else
    let '(t, rows) := resume (second c) (shared c) in
    {| shared := rows; first := first c; second := t |}.

Fixpoint interleave (schedule : list bool) (c : flight) : flight :=
  match schedule with
  | [] => c
  | which :: schedule' => interleave schedule' (schedule_one which c)
  end.

Definition succeeded (t : debit_task) : bool :=
  match t with
  | Returned (Ok (true, _, _)) => true
  | _ => false
  end.

Definition returned (t : debit_task) : bool :=
  match t with
  | Returned _ => true
  | _ => false
  end.

(** The account and the amounts of the scenarios. *)
Definition Decimal_100_00 : Decimal := mkDecimal false 10000 (-2).
Definition Decimal_60_00 : Decimal := mkDecimal false 6000 (-2).
Definition Decimal_40_00 : Decimal := mkDecimal false 4000 (-2).

Definition account_of (user_id : string) (balance : Decimal) (active : bool)
  : BankAccount.t :=
  {| BankAccount.id := "id-" ++ user_id;
     BankAccount.user_id := user_id;
     BankAccount.account_number := "ACC" ++ user_id;
     BankAccount.balance := balance;
     BankAccount.currency := "USD";
     BankAccount.is_active := active |}.

(** ** The constraints of the table and other measures *)

Fixpoint distinct (l : list string) : bool :=
  match l with
  | [] => true
  | x :: l' => negb (existsb (String.eqb x) l') && distinct l'
  end.

(** The primary key and the two unique columns of [models.py] hold no value
    twice. *)
Definition table_ok (rows : list BankAccount.t) : bool :=
  distinct (map BankAccount.id rows)
  && distinct (map BankAccount.user_id rows)
  && distinct (map BankAccount.account_number rows).

(** [Decimal.__eq__]: equality of the values. *)
Definition Decimal_eq (a b : Decimal) : bool :=
  match cmp a b with Eq => true | _ => false end.

(** [row.balance >= 0], for a row, for what a session has to write and for
    what a suspended call carries. *)
Definition row_nonneg (r : BankAccount.t) : bool :=
  ge (BankAccount.balance r) Decimal_0.

Definition pending_nonneg (p : pending) : bool :=
  match p with
  | New a => row_nonneg a
  | Dirty a => row_nonneg a
  end.

Definition task_nonneg (t : debit_task) : bool :=
  match t with
  | AwaitingCommit work _ => forallb pending_nonneg work
  | AwaitingRefresh work _ => forallb pending_nonneg work
  | _ => true
  end.

(** * Properties *)

(** ** Decimal arithmetic *)

Section DecimalFacts.

Lemma signed_of_scaled (z e : Z) (zs : bool) :
  signed (of_scaled z e zs) = z.
Proof.
  unfold signed, of_scaled; simpl.
  rewrite N2Z.inj_abs_N.
  destruct (Z.eqb_spec z 0) as [-> | Hz].
  - destruct zs; reflexivity.
  - destruct (Z.ltb_spec z 0); lia.
Qed.

Lemma signed_copy_negate (a : Decimal) : signed (copy_negate a) = - signed a.
Proof. unfold signed, copy_negate; simpl. destruct (d_sign a); simpl; lia. Qed.

Lemma scaled_copy_negate (a : Decimal) (e : Z) :
  scaled (copy_negate a) e = - scaled a e.
Proof. unfold scaled. rewrite signed_copy_negate. simpl. lia. Qed.

Lemma signed_add (a b : Decimal) :
  signed (add a b)
  = scaled a (Z.min (d_exp a) (d_exp b)) + scaled b (Z.min (d_exp a) (d_exp b)).
Proof. unfold add. apply signed_of_scaled. Qed.

Lemma signed_sub (a b : Decimal) :
  signed (sub a b)
  = scaled a (Z.min (d_exp a) (d_exp b)) - scaled b (Z.min (d_exp a) (d_exp b)).
Proof.
  unfold sub. rewrite signed_add. simpl d_exp.
  rewrite scaled_copy_negate. lia.
Qed.

Lemma d_exp_add (a b : Decimal) : d_exp (add a b) = Z.min (d_exp a) (d_exp b).
Proof. reflexivity. Qed.

Lemma d_exp_sub (a b : Decimal) : d_exp (sub a b) = Z.min (d_exp a) (d_exp b).
Proof. reflexivity. Qed.

Lemma pow10_pos (k : Z) : 0 <= k -> 0 < 10 ^ k.
Proof. intros. apply Z.pow_pos_nonneg; lia. Qed.

(** Scaling to an exponent that is not larger keeps the sign. *)
Lemma scaled_sign (d : Decimal) (e : Z) :
  e <= d_exp d ->
  (0 <= scaled d e <-> 0 <= signed d)
  /\ (scaled d e < 0 <-> signed d < 0)
  /\ (scaled d e <= 0 <-> signed d <= 0).
Proof.
  intros He. unfold scaled.
  pose proof (pow10_pos (d_exp d - e) ltac:(lia)) as Hp.
  repeat split; intros H; nia.
Qed.

Lemma scaled_self (d : Decimal) : scaled d (d_exp d) = signed d.
Proof. unfold scaled. rewrite Z.sub_diag. simpl. lia. Qed.

Lemma cmp_antisym (a b : Decimal) : cmp b a = CompOpp (cmp a b).
Proof. unfold cmp. rewrite (Z.min_comm (d_exp b)). apply Z.compare_antisym. Qed.

Lemma ge_negb_lt (a b : Decimal) : ge a b = negb (lt a b).
Proof.
  unfold ge, le, lt. rewrite (cmp_antisym a b).
  destruct (cmp a b); reflexivity.
Qed.

Lemma lt_scaled (a b : Decimal) :
  lt a b = true
  <-> scaled a (Z.min (d_exp a) (d_exp b)) < scaled b (Z.min (d_exp a) (d_exp b)).
Proof.
  unfold lt, cmp. rewrite <- Z.compare_lt_iff.
  destruct (_ ?= _); split; congruence.
Qed.

Lemma lt_false_scaled (a b : Decimal) :
  lt a b = false
  <-> scaled b (Z.min (d_exp a) (d_exp b)) <= scaled a (Z.min (d_exp a) (d_exp b)).
Proof.
  pose proof (lt_scaled a b) as H.
  destruct (lt a b); split; intros; try congruence; lia.
Qed.

(** [d >= Decimal("0")] says that the coefficient is not negative. *)
Lemma ge_0_signed (d : Decimal) : ge d Decimal_0 = true <-> 0 <= signed d.
Proof.
  rewrite ge_negb_lt, negb_true_iff, lt_false_scaled.
  destruct (scaled_sign d (Z.min (d_exp d) (d_exp Decimal_0)) ltac:(lia)) as (H & _ & _).
  unfold scaled at 1. simpl signed. rewrite Z.mul_0_l. exact H.
Qed.

(** [d < Decimal("0")] says that the coefficient is negative. *)
Lemma lt_0_signed (d : Decimal) : lt d Decimal_0 = true <-> signed d < 0.
Proof.
  rewrite lt_scaled.
  destruct (scaled_sign d (Z.min (d_exp d) (d_exp Decimal_0)) ltac:(lia)) as (_ & H & _).
  unfold scaled at 2. simpl signed. rewrite Z.mul_0_l. exact H.
Qed.

Lemma le_0_signed (d : Decimal) : le d Decimal_0 = true <-> signed d <= 0.
Proof.
  change (le d Decimal_0) with (ge Decimal_0 d).
  rewrite ge_negb_lt, negb_true_iff, lt_false_scaled.
  rewrite Z.min_comm.
  pose proof (scaled_sign d (Z.min (d_exp d) (d_exp Decimal_0)) ltac:(lia)) as (_ & _ & H).
  unfold scaled at 2. simpl signed. rewrite Z.mul_0_l. exact H.
Qed.

(** A debit that passes the sufficiency test leaves a balance [>= 0]. *)
Lemma sub_nonneg (b amount : Decimal) :
  lt b amount = false -> ge (sub b amount) Decimal_0 = true.
Proof.
  rewrite lt_false_scaled, ge_0_signed, signed_sub. lia.
Qed.

Lemma add_nonneg (b amount : Decimal) :
  ge b Decimal_0 = true -> ge amount Decimal_0 = true ->
  ge (add b amount) Decimal_0 = true.
Proof.
  rewrite !ge_0_signed, signed_add. intros Hb Ha.
  pose proof (scaled_sign b (Z.min (d_exp b) (d_exp amount)) ltac:(lia)) as (Hb' & _ & _).
  pose proof (scaled_sign amount (Z.min (d_exp b) (d_exp amount)) ltac:(lia))
    as (Ha' & _ & _).
  lia.
Qed.




Lemma lt_sub_negative (b amount : Decimal) :
  lt amount Decimal_0 = true -> lt b (sub b amount) = true.
Proof.
  rewrite lt_0_signed, lt_scaled. intros Ha.
  rewrite d_exp_sub.
  replace (Z.min (d_exp b) (Z.min (d_exp b) (d_exp amount)))
    with (Z.min (d_exp b) (d_exp amount)) by lia.
  unfold scaled at 2. rewrite d_exp_sub, Z.sub_diag, signed_sub.
  pose proof (scaled_sign amount (Z.min (d_exp b) (d_exp amount)) ltac:(lia))
    as (_ & Ha' & _).
  simpl (10 ^ 0). lia.
Qed.

(** Adding a negative amount lowers the balance. *)
Lemma lt_add_negative (b amount : Decimal) :
  lt amount Decimal_0 = true -> lt (add b amount) b = true.
Proof.
  rewrite lt_0_signed, lt_scaled. intros Ha.
  rewrite d_exp_add.
  replace (Z.min (Z.min (d_exp b) (d_exp amount)) (d_exp b))
    with (Z.min (d_exp b) (d_exp amount)) by lia.
  unfold scaled at 1. rewrite d_exp_add, Z.sub_diag, signed_add.
  pose proof (scaled_sign amount (Z.min (d_exp b) (d_exp amount)) ltac:(lia))
    as (_ & Ha' & _).
  simpl (10 ^ 0). lia.
Qed.

End DecimalFacts.

(** ** Values of balances *)

Lemma scaled_rescale (d : Decimal) (e m : Z) :
  m <= e -> e <= d_exp d -> scaled d m = scaled d e * 10 ^ (e - m).
Proof.
  intros Hm He. unfold scaled.
  replace (d_exp d - m) with ((d_exp d - e) + (e - m)) by lia.
  rewrite Z.pow_add_r by lia. lia.
Qed.

Lemma scaled_of_signed (d : Decimal) (m : Z) :
  scaled d m = signed d * 10 ^ (d_exp d - m).
Proof. reflexivity. Qed.

Lemma scaled_add (a b : Decimal) (m : Z) :
  m <= d_exp a -> m <= d_exp b ->
  scaled (add a b) m = scaled a m + scaled b m.
Proof.
  intros Ha Hb. rewrite scaled_of_signed, signed_add, d_exp_add.
  rewrite (scaled_rescale a (Z.min (d_exp a) (d_exp b)) m) by lia.
  rewrite (scaled_rescale b (Z.min (d_exp a) (d_exp b)) m) by lia.
  lia.
Qed.

Lemma scaled_sub (a b : Decimal) (m : Z) :
  m <= d_exp a -> m <= d_exp b ->
  scaled (sub a b) m = scaled a m - scaled b m.
Proof.
  intros Ha Hb. unfold sub. rewrite scaled_add by assumption.
  rewrite scaled_copy_negate. lia.
Qed.

(** Two decimals are equal as values when they agree at one exponent that
    neither exceeds. *)
Lemma Decimal_eq_scaled (a b : Decimal) (m : Z) :
  m <= d_exp a -> m <= d_exp b ->
  (Decimal_eq a b = true <-> scaled a m = scaled b m).
Proof.
  intros Ha Hb. unfold Decimal_eq, cmp.
  rewrite (scaled_rescale a (Z.min (d_exp a) (d_exp b)) m) by lia.
  rewrite (scaled_rescale b (Z.min (d_exp a) (d_exp b)) m) by lia.
  pose proof (pow10_pos (Z.min (d_exp a) (d_exp b) - m) ltac:(lia)) as Hp.
  destruct (Z.compare_spec (scaled a (Z.min (d_exp a) (d_exp b)))
              (scaled b (Z.min (d_exp a) (d_exp b)))) as [H | H | H];
    split; intros H'; try discriminate; try reflexivity; nia.
Qed.

Lemma lt_scaled_at (a b : Decimal) (m : Z) :
  m <= d_exp a -> m <= d_exp b ->
  (lt a b = true <-> scaled a m < scaled b m).
Proof.
  intros Ha Hb. rewrite lt_scaled.
  rewrite (scaled_rescale a (Z.min (d_exp a) (d_exp b)) m) by lia.
  rewrite (scaled_rescale b (Z.min (d_exp a) (d_exp b)) m) by lia.
  pose proof (pow10_pos (Z.min (d_exp a) (d_exp b) - m) ltac:(lia)) as Hp.
  split; intros H; nia.
Qed.

Lemma lt_0_pos (d : Decimal) : lt Decimal_0 d = true <-> 0 < signed d.
Proof.
  pose proof (ge_negb_lt Decimal_0 d) as H.
  change (ge Decimal_0 d) with (le d Decimal_0) in H.
  pose proof (le_0_signed d) as Hle.
  destruct (lt Decimal_0 d), (le d Decimal_0); simpl in H; try discriminate.
  - split; [intros _ | reflexivity].
    destruct (Z_lt_le_dec 0 (signed d)) as [Hp | Hn]; [exact Hp |].
    apply Hle in Hn. discriminate.
  - split; [discriminate |]. intros Hp.
    destruct Hle as [Hle _]. specialize (Hle eq_refl). lia.
Qed.

(** Taking an amount off and putting it back gives the value back. *)
Lemma add_sub_value (b amount : Decimal) :
  Decimal_eq (add (sub b amount) amount) b = true.
Proof.
  apply (Decimal_eq_scaled _ _ (Z.min (d_exp b) (d_exp amount))).
  - rewrite d_exp_add, d_exp_sub. lia.
  - lia.
  - rewrite scaled_add, scaled_sub; rewrite ?d_exp_sub; lia.
Qed.

Lemma add_add_value (b x y : Decimal) :
  Decimal_eq (add (add b x) y) (add b (add x y)) = true
  /\ Decimal_eq (add (add b x) y) (add (add b y) x) = true.
Proof.
  split;
    apply (Decimal_eq_scaled _ _
             (Z.min (d_exp b) (Z.min (d_exp x) (d_exp y))));
    rewrite ?d_exp_add; try lia;
    rewrite !scaled_add; rewrite ?d_exp_add; lia.
Qed.

Lemma sub_sub_value (b x y : Decimal) :
  Decimal_eq (sub (sub b x) y) (sub b (add x y)) = true.
Proof.
  apply (Decimal_eq_scaled _ _
           (Z.min (d_exp b) (Z.min (d_exp x) (d_exp y))));
    rewrite ?d_exp_sub, ?d_exp_add; try lia.
  rewrite !scaled_sub, scaled_add; rewrite ?d_exp_sub, ?d_exp_add; lia.
Qed.

Lemma lt_sub_positive (b amount : Decimal) :
  lt Decimal_0 amount = true -> lt (sub b amount) b = true.
Proof.
  rewrite lt_0_pos. intros Hp.
  apply (lt_scaled_at _ _ (Z.min (d_exp b) (d_exp amount)));
    rewrite ?d_exp_sub; try lia.
  rewrite scaled_sub by lia.
  destruct (scaled_sign amount (Z.min (d_exp b) (d_exp amount)) ltac:(lia))
    as (_ & _ & H).
  lia.
Qed.

Lemma lt_add_positive (b amount : Decimal) :
  lt Decimal_0 amount = true -> lt b (add b amount) = true.
Proof.
  rewrite lt_0_pos. intros Hp.
  apply (lt_scaled_at _ _ (Z.min (d_exp b) (d_exp amount)));
    rewrite ?d_exp_add; try lia.
  rewrite scaled_add by lia.
  destruct (scaled_sign amount (Z.min (d_exp b) (d_exp amount)) ltac:(lia))
    as (_ & _ & H).
  lia.
Qed.

(** ** The column type *)

Section ColumnFacts.

Lemma signed_stored_as (d : Decimal) : signed (stored_as d) = hundredths d.
Proof.
  unfold signed, stored_as; simpl. rewrite N2Z.inj_abs_N.
  destruct (Z.ltb_spec (hundredths d) 0); lia.
Qed.

Lemma scaled_stored_as (d : Decimal) : scaled (stored_as d) (-2) = hundredths d.
Proof.
  unfold scaled. rewrite signed_stored_as. simpl d_exp.
  change (-2 - -2) with 0. simpl (10 ^ 0). lia.
Qed.

Lemma in_cents_exp (d : Decimal) : in_cents d = true <-> -2 <= d_exp d.
Proof. unfold in_cents. apply Z.leb_le. Qed.

Lemma hundredths_in_cents (d : Decimal) :
  in_cents d = true -> hundredths d = scaled d (-2).
Proof. unfold hundredths, in_cents. intros ->. reflexivity. Qed.

Lemma in_cents_stored_as (d : Decimal) : in_cents (stored_as d) = true.
Proof. reflexivity. Qed.

Lemma in_cents_add (a b : Decimal) :
  in_cents a = true -> in_cents b = true -> in_cents (add a b) = true.
Proof. rewrite !in_cents_exp, d_exp_add. lia. Qed.

Lemma in_cents_sub (a b : Decimal) :
  in_cents a = true -> in_cents b = true -> in_cents (sub a b) = true.
Proof. rewrite !in_cents_exp, d_exp_sub. lia. Qed.

(** A value of at most two fractional digits is stored as it is. *)
Lemma stored_as_value (d : Decimal) :
  in_cents d = true -> Decimal_eq (stored_as d) d = true.
Proof.
  intros Hd. apply (Decimal_eq_scaled _ _ (-2)).
  - simpl. lia.
  - apply in_cents_exp, Hd.
  - rewrite scaled_stored_as. apply hundredths_in_cents, Hd.
Qed.

Lemma round_half_away_nonneg (n k : Z) :
  0 <= n -> 0 < k -> 0 <= round_half_away n k.
Proof.
  intros Hn Hk. unfold round_half_away.
  apply Z.mul_nonneg_nonneg; [lia |].
  apply Z.div_pos; [| apply pow10_pos; lia].
  pose proof (pow10_pos (k - 1) ltac:(lia)). lia.
Qed.

(** Rounding keeps a value that is not negative not negative. *)
Lemma hundredths_nonneg (d : Decimal) : 0 <= signed d -> 0 <= hundredths d.
Proof.
  intros Hd. unfold hundredths.
  destruct (Z.leb_spec (-2) (d_exp d)) as [He | He].
  - apply (scaled_sign d (-2) He), Hd.
  - apply round_half_away_nonneg; lia.
Qed.

Lemma stored_as_nonneg (d : Decimal) :
  ge d Decimal_0 = true -> ge (stored_as d) Decimal_0 = true.
Proof.
  rewrite !ge_0_signed, signed_stored_as. apply hundredths_nonneg.
Qed.

Lemma numeric_10_2_Ok (d v : Decimal) :
  numeric_10_2 d = Ok v <-> fits_column d = true /\ v = stored_as d.
Proof.
  unfold numeric_10_2. destruct (fits_column d); split.
  - intros H. inversion H. auto.
  - intros [_ ->]. reflexivity.
  - discriminate.
  - intros [H _]. discriminate.
Qed.

Lemma numeric_10_2_Raise (d : Decimal) (e : exn) :
  numeric_10_2 d = Raise e <-> fits_column d = false /\ e = DBAPIError.
Proof.
  unfold numeric_10_2. destruct (fits_column d); split.
  - discriminate.
  - intros [H _]. discriminate.
  - intros H. inversion H. auto.
  - intros [_ ->]. reflexivity.
Qed.

(** Values in hundredths: what the operations do to them. *)
Lemma hundredths_add (a b : Decimal) :
  in_cents a = true -> in_cents b = true ->
  hundredths (add a b) = hundredths a + hundredths b.
Proof.
  intros Ha Hb.
  rewrite !hundredths_in_cents by (try apply in_cents_add; assumption).
  apply scaled_add; apply in_cents_exp; assumption.
Qed.

Lemma hundredths_sub (a b : Decimal) :
  in_cents a = true -> in_cents b = true ->
  hundredths (sub a b) = hundredths a - hundredths b.
Proof.
  intros Ha Hb.
  rewrite !hundredths_in_cents by (try apply in_cents_sub; assumption).
  apply scaled_sub; apply in_cents_exp; assumption.
Qed.

Lemma hundredths_stored_as (d : Decimal) :
  hundredths (stored_as d) = hundredths d.
Proof.
  rewrite (hundredths_in_cents (stored_as d)) by reflexivity.
  apply scaled_stored_as.
Qed.

Lemma Decimal_eq_hundredths (a b : Decimal) :
  in_cents a = true -> in_cents b = true ->
  (Decimal_eq a b = true <-> hundredths a = hundredths b).
Proof.
  intros Ha Hb. rewrite !hundredths_in_cents by assumption.
  apply Decimal_eq_scaled; apply in_cents_exp; assumption.
Qed.

Lemma lt_hundredths (a b : Decimal) :
  in_cents a = true -> in_cents b = true ->
  (lt a b = true <-> hundredths a < hundredths b).
Proof.
  intros Ha Hb. rewrite !hundredths_in_cents by assumption.
  apply lt_scaled_at; apply in_cents_exp; assumption.
Qed.


End ColumnFacts.

(** ** The session and the table *)

Section SessionFacts.

Lemma get_account_run (user_id : string) (s : AsyncSession) :
  get_account_by_user_id user_id s
  = (match select_by_user_id user_id (table s) with
     | [] => Ok None
     | [r] => Ok (Some r)
     | _ => Raise MultipleResultsFound
     end, s).
Proof.
  unfold get_account_by_user_id, bind, db_execute, scalar_one_or_none.
  destruct (select_by_user_id user_id (table s)) as [| r [| r' l]]; reflexivity.
Qed.

Lemma lookup_select (user_id : string) (rows : list BankAccount.t) :
  lookup user_id rows
  = match select_by_user_id user_id rows with
    | [] => Ok None
    | [r] => Ok (Some r)
    | _ => Raise MultipleResultsFound
    end.
Proof. unfold lookup, serve. rewrite get_account_run. reflexivity. Qed.

Lemma lookup_Some (user_id : string) (rows : list BankAccount.t)
    (a : BankAccount.t) :
  lookup user_id rows = Ok (Some a) <-> select_by_user_id user_id rows = [a].
Proof.
  rewrite lookup_select.
  destruct (select_by_user_id user_id rows) as [| r [| r' l]];
    split; intros H; congruence.
Qed.

Lemma lookup_None (user_id : string) (rows : list BankAccount.t) :
  lookup user_id rows = Ok None <-> select_by_user_id user_id rows = [].
Proof.
  rewrite lookup_select.
  destruct (select_by_user_id user_id rows) as [| r [| r' l]];
    split; intros H; congruence.
Qed.

Lemma select_In (user_id : string) (rows : list BankAccount.t)
    (a : BankAccount.t) :
  select_by_user_id user_id rows = [a] ->
  In a rows /\ BankAccount.user_id a = user_id.
Proof.
  intros H.
  assert (Hin : In a (select_by_user_id user_id rows)) by (rewrite H; now left).
  apply filter_In in Hin. destruct Hin as [Hin Heq].
  apply String.eqb_eq in Heq. auto.
Qed.

(** The UPDATE keeps every column but [balance]. *)
Lemma select_update_balance (user_id : string) (a : BankAccount.t)
    (rows : list BankAccount.t) :
  select_by_user_id user_id (update_balance a rows)
  = update_balance a (select_by_user_id user_id rows).
Proof.
  unfold select_by_user_id, update_balance.
  induction rows as [| r rows IH]; simpl; [reflexivity |].
  destruct (String.eqb (BankAccount.id r) (BankAccount.id a)) eqn:E; simpl;
    destruct (String.eqb (BankAccount.user_id r) user_id); simpl;
    rewrite IH, ?E; reflexivity.
Qed.

(** After the UPDATE, the row read back by primary key has the new balance. *)
Lemma find_update_balance (a a' : BankAccount.t) (rows : list BankAccount.t) :
  In a rows -> BankAccount.id a' = BankAccount.id a ->
  exists r,
    find (fun r => String.eqb (BankAccount.id r) (BankAccount.id a'))
         (update_balance a' rows) = Some r
    /\ BankAccount.balance r = BankAccount.balance a'.
Proof.
  intros Hin Hid. induction rows as [| r rows IH]; [contradiction |].
  simpl. destruct (String.eqb (BankAccount.id r) (BankAccount.id a')) eqn:E.
  - simpl. rewrite E. eexists; split; [reflexivity | reflexivity].
  - rewrite E. destruct Hin as [-> | Hin].
    + rewrite Hid, String.eqb_refl in E. discriminate.
    + apply IH, Hin.
Qed.

(** The rows of other primary keys are not touched. *)
Lemma update_balance_other (a r : BankAccount.t) (rows : list BankAccount.t) :
  In r rows -> BankAccount.id r <> BankAccount.id a ->
  In r (update_balance a rows).
Proof.
  intros Hin Hne. unfold update_balance. apply in_map_iff.
  exists r. split; [| exact Hin].
  apply String.eqb_neq in Hne. rewrite Hne. reflexivity.
Qed.

Lemma update_balance_length (a : BankAccount.t) (rows : list BankAccount.t) :
  List.length (update_balance a rows) = List.length rows.
Proof. apply length_map. Qed.

(** A write: the assignment, the commit and the refresh.  The value passes
    the column type or the commit raises and nothing is written. *)
Lemma write_balance_run (rows : list BankAccount.t) (a : BankAccount.t)
    (value : Decimal) :
  In a rows ->
  (account <- set_balance a value ;;
   db_commit ;;;
   account <- db_refresh account ;;
   ret (true, "Transaction successful", BankAccount.balance account))
    (session_of rows)
  = match numeric_10_2 value with
    | Ok v =>
        (Ok (true, "Transaction successful", v),
         session_of (update_balance (BankAccount.with_balance a v) rows))
    | Raise e => (Raise e, session_of rows)
    end.
Proof.
  intros Hin.
  unfold bind, set_balance, db_commit, db_refresh, ret, session_of.
  cbn [table unit_of_work app flush BankAccount.balance
       BankAccount.with_balance].
  destruct (numeric_10_2 value) as [v | e]; [| reflexivity].
  destruct (find_update_balance a (BankAccount.with_balance a v) rows Hin
              eq_refl) as (r & Hfind & Hbal).
  cbn [table unit_of_work BankAccount.id BankAccount.with_balance
       BankAccount.balance] in Hfind, Hbal |- *.
  change (BankAccount.with_balance (BankAccount.with_balance a value) v)
    with (BankAccount.with_balance a v).
  rewrite Hfind, Hbal. reflexivity.
Qed.

(** What [debit_account] does, by the rows its query selects. *)
Lemma debit_account_run (user_id : string) (amount : Decimal)
    (rows : list BankAccount.t) :
  serve (debit_account user_id amount) rows
  = match lookup user_id rows with
    | Raise e => (Raise e, rows)
    | Ok None => (Ok (false, "Account not found", Decimal_0), rows)
    | Ok (Some a) =>
        if negb (BankAccount.is_active a) then
          (Ok (false, "Account is inactive", BankAccount.balance a), rows)
        else if lt (BankAccount.balance a) amount then
          (Ok (false,
               "Insufficient balance. Available: "
                 ++ str (BankAccount.balance a)
                 ++ ", Required: " ++ str amount,
               BankAccount.balance a), rows)
        else
          match numeric_10_2 (sub (BankAccount.balance a) amount) with
          | Ok v =>
              (Ok (true, "Transaction successful", v),
               update_balance (BankAccount.with_balance a v) rows)
          | Raise e => (Raise e, rows)
          end
    end.
Proof.
  rewrite lookup_select. unfold serve, debit_account.
  unfold bind at 1. rewrite get_account_run. simpl table.
  destruct (select_by_user_id user_id rows) as [| a [| a' l]] eqn:Hsel;
    try reflexivity.
  destruct (negb (BankAccount.is_active a)); [reflexivity |].
  destruct (lt (BankAccount.balance a) amount); [reflexivity |].
  rewrite write_balance_run by (apply (select_In user_id), Hsel).
  destruct (numeric_10_2 _); reflexivity.
Qed.

(** What [credit_account] does, by the rows its query selects. *)
Lemma credit_account_run (user_id : string) (amount : Decimal)
    (rows : list BankAccount.t) :
  serve (credit_account user_id amount) rows
  = match lookup user_id rows with
    | Raise e => (Raise e, rows)
    | Ok None => (Ok (false, "Account not found", Decimal_0), rows)
    | Ok (Some a) =>
        if negb (BankAccount.is_active a) then
          (Ok (false, "Account is inactive", BankAccount.balance a), rows)
        else
          match numeric_10_2 (add (BankAccount.balance a) amount) with
          | Ok v =>
              (Ok (true, "Transaction successful", v),
               update_balance (BankAccount.with_balance a v) rows)
          | Raise e => (Raise e, rows)
          end
    end.
Proof.
  rewrite lookup_select. unfold serve, credit_account.
  unfold bind at 1. rewrite get_account_run. simpl table.
  destruct (select_by_user_id user_id rows) as [| a [| a' l]] eqn:Hsel;
    try reflexivity.
  destruct (negb (BankAccount.is_active a)); [reflexivity |].
  rewrite write_balance_run by (apply (select_In user_id), Hsel).
  destruct (numeric_10_2 _); reflexivity.
Qed.

(** After a write, the account of [user_id] is the old row with the new
    balance. *)
Lemma lookup_update_balance (user_id : string) (rows : list BankAccount.t)
    (a : BankAccount.t) (value : Decimal) :
  lookup user_id rows = Ok (Some a) ->
  lookup user_id (update_balance (BankAccount.with_balance a value) rows)
  = Ok (Some (BankAccount.with_balance a value)).
Proof.
  rewrite !lookup_Some, select_update_balance. intros ->.
  simpl. rewrite String.eqb_refl. reflexivity.
Qed.

End SessionFacts.

(** ** Balance checks and mutations *)

Lemma check_balance_run (user_id : string) (amount : Decimal)
    (rows : list BankAccount.t) :
  serve (check_balance user_id amount) rows
  = (match lookup user_id rows with
     | Raise e => Raise e
     | Ok None => Ok (false, "Account not found")
     | Ok (Some a) =>
         if negb (BankAccount.is_active a) then
           Ok (false, "Account is inactive")
         else if lt (BankAccount.balance a) amount then
           Ok (false,
               "Insufficient balance. Available: "
                 ++ str (BankAccount.balance a)
                 ++ ", Required: " ++ str amount)
         else Ok (true, "Sufficient balance")
     end, rows).
Proof.
  rewrite lookup_select. unfold serve, check_balance.
  unfold bind at 1. rewrite get_account_run. simpl table.
  destruct (select_by_user_id user_id rows) as [| a [| a' l]];
    try reflexivity.
  destruct (negb (BankAccount.is_active a)); [reflexivity |].
  destruct (lt (BankAccount.balance a) amount); reflexivity.
Qed.

(** One request keeps [balance >= 0] unless it is a credit of a negative
    amount. *)
Lemma perform_keeps_nonneg (user_id : string) (op : operation)
    (rows : list BankAccount.t) :
  negative_credit op = false ->
  balance_nonneg user_id rows ->
  balance_nonneg user_id (snd (serve (perform user_id op) rows)).
Proof.
  intros Hop (a & Hlook & Hge).
  destruct op as [amount | amount]; simpl perform.
  - rewrite debit_account_run, Hlook.
    destruct (negb (BankAccount.is_active a)); [exists a; auto |].
    destruct (lt (BankAccount.balance a) amount) eqn:Hlt; [exists a; auto |].
    destruct (numeric_10_2 _) as [v | e] eqn:Hnum; [| exists a; auto].
    apply numeric_10_2_Ok in Hnum. destruct Hnum as [_ ->].
    simpl snd. eexists. split.
    + apply lookup_update_balance, Hlook.
    + simpl. apply stored_as_nonneg, sub_nonneg, Hlt.
  - rewrite credit_account_run, Hlook.
    destruct (negb (BankAccount.is_active a)); [exists a; auto |].
    destruct (numeric_10_2 _) as [v | e] eqn:Hnum; [| exists a; auto].
    apply numeric_10_2_Ok in Hnum. destruct Hnum as [_ ->].
    simpl snd. eexists. split.
    + apply lookup_update_balance, Hlook.
    + simpl. apply stored_as_nonneg, add_nonneg; [exact Hge |].
      simpl in Hop. rewrite ge_negb_lt, Hop. reflexivity.
Qed.

(** C1 (as amended).  Starting from an account with [balance >= 0], after
    every request of a sequence of debits (of any amount) and of credits of
    amounts that are not negative, the persisted balance is [>= 0]; a debit
    of more than the balance is rejected and leaves the table as it was. *)
Theorem nonneg_balance_invariant (user_id : string) (ops : list operation)
    (rows : list BankAccount.t) :
  balance_nonneg user_id rows ->
  Forall (fun op => negative_credit op = false) ops ->
  Forall (balance_nonneg user_id) (history user_id ops rows)
  /\ (forall rows' a amount,
        lookup user_id rows' = Ok (Some a) ->
        lt (BankAccount.balance a) amount = true ->
        exists msg,
          serve (debit_account user_id amount) rows'
          = (Ok (false, msg, BankAccount.balance a), rows')).
Proof.
  intros Hinv Hops. split.
  - revert rows Hinv. induction Hops as [| op ops Hop _ IH]; intros rows Hinv.
    + constructor.
    + simpl. pose proof (perform_keeps_nonneg _ _ _ Hop Hinv) as Hnext.
      constructor; [exact Hnext | apply IH, Hnext].
  - intros rows' a amount Hlook Hlt.
    rewrite debit_account_run, Hlook, Hlt.
    destruct (negb (BankAccount.is_active a)); eexists; reflexivity.
Qed.

Lemma nonneg_balance_invariant_witness :
  Forall (balance_nonneg "u1")
    (history "u1"
       [Debit (mkDecimal false 30000 (-2)); Debit (mkDecimal false 80000 (-2));
        Credit (mkDecimal false 5000 (-2)); Debit (mkDecimal true 100 (-2))]
       [account_of "u1" Decimal_1000_00 true]).
Proof.
  apply (nonneg_balance_invariant "u1"
           [Debit (mkDecimal false 30000 (-2));
            Debit (mkDecimal false 80000 (-2));
            Credit (mkDecimal false 5000 (-2));
            Debit (mkDecimal true 100 (-2))]
           [account_of "u1" Decimal_1000_00 true]).
  - exists (account_of "u1" Decimal_1000_00 true). split; reflexivity.
  - repeat constructor.
Defined.

(** C1 (as stated) fails: a credit of -2000.00 on a balance of 1000.00 is
    accepted and persists a balance of -1000.00. *)
Lemma credit_negative_breaks_nonneg :
  balance_nonneg "u1" [account_of "u1" Decimal_1000_00 true]
  /\ serve (credit_account "u1" (mkDecimal true 200000 (-2)))
           [account_of "u1" Decimal_1000_00 true]
     = (Ok (true, "Transaction successful", mkDecimal true 100000 (-2)),
        [account_of "u1" (mkDecimal true 100000 (-2)) true])
  /\ ~ Forall (balance_nonneg "u1")
         (history "u1" [Credit (mkDecimal true 200000 (-2))]
                  [account_of "u1" Decimal_1000_00 true]).
Proof.
  split; [| split].
  - exists (account_of "u1" Decimal_1000_00 true). split; reflexivity.
  - reflexivity.
  - intros H. inversion H as [| rows' l (a & Hlook & Hge) _]; subst.
    vm_compute in Hlook. inversion Hlook; subst a.
    vm_compute in Hge. discriminate.
Qed.




(** C3 (as amended).  [check_balance] tests existence, then activity, then
    sufficiency, and stops at the first test that fails: "Account not found"
    when there is no account; "Account is inactive" for an inactive account,
    whatever its balance; "Insufficient balance. Available: <balance>,
    Required: <amount>" for an active account with [balance < amount];
    "Sufficient balance" otherwise.  The table is not written. *)
Theorem check_balance_order (user_id : string) (amount : Decimal)
    (rows : list BankAccount.t) :
  snd (serve (check_balance user_id amount) rows) = rows
  /\ (lookup user_id rows = Ok None ->
      fst (serve (check_balance user_id amount) rows)
      = Ok (false, "Account not found"))
  /\ (forall a,
        lookup user_id rows = Ok (Some a) ->
        BankAccount.is_active a = false ->
        fst (serve (check_balance user_id amount) rows)
        = Ok (false, "Account is inactive"))
  /\ (forall a,
        lookup user_id rows = Ok (Some a) ->
        BankAccount.is_active a = true ->
        lt (BankAccount.balance a) amount = true ->
        fst (serve (check_balance user_id amount) rows)
        = Ok (false,
              "Insufficient balance. Available: "
                ++ str (BankAccount.balance a)
                ++ ", Required: " ++ str amount))
  /\ (forall a,
        lookup user_id rows = Ok (Some a) ->
        BankAccount.is_active a = true ->
        lt (BankAccount.balance a) amount = false ->
        fst (serve (check_balance user_id amount) rows)
        = Ok (true, "Sufficient balance")).
Proof.
  rewrite check_balance_run. simpl fst; simpl snd.
  split; [reflexivity |].
  split; [intros ->; reflexivity |].
  repeat split; intros a -> Hact; rewrite Hact; simpl negb; cbv iota;
    try reflexivity; intros ->; reflexivity.
Qed.

Lemma check_balance_order_witness :
  fst (serve (check_balance "u1" (mkDecimal false 80000 (-2)))
             [account_of "u1" (mkDecimal false 70000 (-2)) true])
  = Ok (false, "Insufficient balance. Available: 700.00, Required: 800.00").
Proof.
  destruct (check_balance_order "u1" (mkDecimal false 80000 (-2))
              [account_of "u1" (mkDecimal false 70000 (-2)) true])
    as (_ & _ & _ & H & _).
  apply (H (account_of "u1" (mkDecimal false 70000 (-2)) true));
    reflexivity.
Defined.

(** C3 (as stated) fails: for a balance of 700.00 and an amount of 800.00
    the reason is not "Insufficient balance: available=700.00,
    required=800.00". *)
Lemma check_balance_reason_differs :
  lookup "u1" [account_of "u1" (mkDecimal false 70000 (-2)) true]
  = Ok (Some (account_of "u1" (mkDecimal false 70000 (-2)) true))
  /\ lt (mkDecimal false 70000 (-2)) (mkDecimal false 80000 (-2)) = true
  /\ fst (serve (check_balance "u1" (mkDecimal false 80000 (-2)))
                [account_of "u1" (mkDecimal false 70000 (-2)) true])
     <> Ok (false,
            "Insufficient balance: available=700.00, required=800.00").
Proof.
  split; [reflexivity |]. split; [reflexivity |].
  vm_compute. discriminate.
Qed.

(** C4.  A [debit_account] or [credit_account] call that does not succeed
    leaves the table as it was; when it returns [success = false], the
    balance it returns is 0 if there is no account and the stored balance
    otherwise.  A missing account, an inactive account (for every amount)
    and, for a debit, a balance below the amount make the call fail. *)
Theorem failed_mutation_keeps_state (user_id : string) (op : operation)
    (rows : list BankAccount.t) :
  ((forall msg b,
       fst (serve (perform user_id op) rows) <> Ok (true, msg, b)) ->
   snd (serve (perform user_id op) rows) = rows)
  /\ (forall msg b,
        fst (serve (perform user_id op) rows) = Ok (false, msg, b) ->
        (lookup user_id rows = Ok None -> b = Decimal_0)
        /\ (forall a, lookup user_id rows = Ok (Some a) ->
                      b = BankAccount.balance a))
  /\ (lookup user_id rows = Ok None ->
      serve (perform user_id op) rows
      = (Ok (false, "Account not found", Decimal_0), rows))
  /\ (forall a,
        lookup user_id rows = Ok (Some a) ->
        BankAccount.is_active a = false ->
        serve (perform user_id op) rows
        = (Ok (false, "Account is inactive", BankAccount.balance a), rows))
  /\ (forall a amount,
        op = Debit amount ->
        lookup user_id rows = Ok (Some a) ->
        lt (BankAccount.balance a) amount = true ->
        exists msg,
          serve (perform user_id op) rows
          = (Ok (false, msg, BankAccount.balance a), rows)).
Proof.
  destruct op as [amount | amount]; simpl perform;
    [rewrite debit_account_run | rewrite credit_account_run];
    (destruct (lookup user_id rows) as [[a |] | e] eqn:Hlook;
     [destruct (BankAccount.is_active a) eqn:Hact; simpl negb; cbv iota;
      try destruct (lt (BankAccount.balance a) amount) eqn:Hlt;
      try destruct (numeric_10_2 _) as [v | e] | |]);
    simpl fst; simpl snd;
    repeat match goal with |- _ /\ _ => split end;
    intros;
    repeat match goal with
           | H : Ok _ = Ok _ |- _ => inversion H; clear H; subst
           | H : Debit _ = Debit _ |- _ => inversion H; clear H; subst
           end;
    try discriminate; try congruence; try reflexivity;
    try (eexists; reflexivity);
    repeat match goal with |- _ /\ _ => split end;
    intros;
    repeat match goal with
           | H : Ok _ = Ok _ |- _ => inversion H; clear H; subst
           end;
    try discriminate; try congruence; try reflexivity;
    try (eexists; reflexivity);
    exfalso;
    match goal with
    | H : forall msg b, _ <> _ |- _ => eapply H; reflexivity
    end.
Qed.

Lemma failed_mutation_keeps_state_witness :
  serve (perform "u1" (Credit (mkDecimal false 1000 (-2))))
        [account_of "u1" Decimal_100_00 false]
  = (Ok (false, "Account is inactive", Decimal_100_00),
     [account_of "u1" Decimal_100_00 false])
  /\ serve (perform "u1" (Debit (mkDecimal false 1000 (-2))))
           [account_of "u1" Decimal_100_00 false]
     = (Ok (false, "Account is inactive", Decimal_100_00),
        [account_of "u1" Decimal_100_00 false]).
Proof.
  split.
  - destruct (failed_mutation_keeps_state "u1"
                (Credit (mkDecimal false 1000 (-2)))
                [account_of "u1" Decimal_100_00 false])
      as (_ & _ & _ & H & _).
    apply (H (account_of "u1" Decimal_100_00 false)); reflexivity.
  - destruct (failed_mutation_keeps_state "u1"
                (Debit (mkDecimal false 1000 (-2)))
                [account_of "u1" Decimal_100_00 false])
      as (_ & _ & _ & H & _).
    apply (H (account_of "u1" Decimal_100_00 false)); reflexivity.
Defined.

(** ** Account creation *)

Lemma find_fresh (a : BankAccount.t) (rows : list BankAccount.t) :
  conflicts a rows = false ->
  find (fun r => String.eqb (BankAccount.id r) (BankAccount.id a))
       (rows ++ [a])%list = Some a.
Proof.
  unfold conflicts. induction rows as [| r rows IH]; simpl; intros H.
  - rewrite String.eqb_refl. reflexivity.
  - apply orb_false_iff in H. destruct H as [Hr Hrows].
    apply orb_false_iff in Hr. destruct Hr as [Hr _].
    apply orb_false_iff in Hr. destruct Hr as [Hr _].
    rewrite Hr. apply IH, Hrows.
Qed.

Lemma lookup_fresh (a : BankAccount.t) (rows : list BankAccount.t) :
  conflicts a rows = false ->
  lookup (BankAccount.user_id a) (rows ++ [a])%list = Ok (Some a).
Proof.
  intros Hc. apply lookup_Some. unfold select_by_user_id.
  rewrite filter_app. unfold conflicts in Hc.
  assert (Hnone : filter
                    (fun r => String.eqb (BankAccount.user_id r)
                                (BankAccount.user_id a)) rows = []).
  { induction rows as [| r rows IH]; [reflexivity |].
    cbn [existsb] in Hc. apply orb_false_iff in Hc. destruct Hc as [Hr Hrows].
    apply orb_false_iff in Hr. destruct Hr as [Hr _].
    apply orb_false_iff in Hr. destruct Hr as [_ Hr].
    cbn [filter]. rewrite Hr. apply IH, Hrows. }
  rewrite Hnone. cbn [filter app]. rewrite String.eqb_refl. reflexivity.
Qed.

Lemma conflicts_id (a r : BankAccount.t) (rows : list BankAccount.t) :
  conflicts a rows = false -> In r rows ->
  BankAccount.id r <> BankAccount.id a.
Proof.
  unfold conflicts. intros Hc Hin Heq.
  rewrite <- not_true_iff_false in Hc. apply Hc.
  apply existsb_exists. exists r. split; [exact Hin |].
  rewrite Heq, String.eqb_refl. reflexivity.
Qed.

Lemma conflicts_with_balance (a : BankAccount.t) (b : Decimal)
    (rows : list BankAccount.t) :
  conflicts (BankAccount.with_balance a b) rows = conflicts a rows.
Proof. reflexivity. Qed.

(** The INSERT of a row, as [create_account] issues it. *)
Lemma insert_run (account : BankAccount.t) (rows : list BankAccount.t) :
  (db_add account ;;;
   db_commit ;;;
   account <- db_refresh account ;;
   ret account) (session_of rows)
  = match numeric_10_2 (BankAccount.balance account) with
    | Raise e => (Raise e, session_of rows)
    | Ok b =>
        if conflicts account rows then (Raise IntegrityError, session_of rows)
        else (Ok (BankAccount.with_balance account b),
              session_of (rows ++ [BankAccount.with_balance account b]))
    end.
Proof.
  unfold bind, db_add, db_commit, db_refresh, ret, session_of.
  cbn [table unit_of_work app flush].
  destruct (numeric_10_2 (BankAccount.balance account)) as [b | e];
    [| reflexivity].
  destruct (conflicts account rows) eqn:Hc; [reflexivity |].
  cbn [table unit_of_work].
  pose proof (find_fresh (BankAccount.with_balance account b) rows Hc)
    as Hfind.
  cbn [BankAccount.id BankAccount.with_balance] in Hfind.
  rewrite Hfind. reflexivity.
Qed.

(** What [create_account] does: the INSERT is refused when the initial
    balance does not fit the column or a constraint of the table is
    violated, and the new row is appended otherwise. *)
Lemma create_account_run (r1 r2 : N) (account_data : BankAccountCreate.t)
    (rows : list BankAccount.t) :
  let account :=
    {| BankAccount.id := uuid.to_str (uuid.uuid4 r1);
       BankAccount.user_id := BankAccountCreate.user_id account_data;
       BankAccount.account_number :=
         "ACC" ++ upper (substring 0 10 (uuid.hex (uuid.uuid4 r2)));
       BankAccount.balance := BankAccountCreate.initial_balance account_data;
       BankAccount.currency := BankAccountCreate.currency account_data;
       BankAccount.is_active := true |} in
  serve (create_account r1 r2 account_data) rows
  = match numeric_10_2 (BankAccountCreate.initial_balance account_data) with
    | Raise e => (Raise e, rows)
    | Ok b =>
        if conflicts account rows then (Raise IntegrityError, rows)
        else (Ok (BankAccount.with_balance account b),
              (rows ++ [BankAccount.with_balance account b])%list)
    end.
Proof.
  intros account. unfold create_account, serve. fold account.
  assert (Hbal : BankAccount.balance account
                 = BankAccountCreate.initial_balance account_data)
    by reflexivity.
  rewrite <- Hbal. generalize account. clear account Hbal. intros account.
  rewrite insert_run.
  destruct (numeric_10_2 (BankAccount.balance account)); [| reflexivity].
  destruct (conflicts account rows); reflexivity.
Qed.

Lemma hexdigit_upper_isalnum (d : N) :
  (d < 16)%N -> isalnum_char (upper_char (uuid.hexdigit d)) = true.
Proof.
  intros H.
  assert (Hd : In d [0; 1; 2; 3; 4; 5; 6; 7; 8; 9; 10; 11; 12; 13; 14; 15]%N).
  { simpl. lia. }
  simpl in Hd.
  repeat (destruct Hd as [<- | Hd]; [reflexivity |]). contradiction.
Qed.

Lemma hex_digits_upper_isalnum (k : nat) (n : N) :
  isalnum_all (upper (uuid.hex_digits k n)) = true.
Proof.
  induction k as [| k IH]; [reflexivity |].
  cbn [uuid.hex_digits upper isalnum_all].
  rewrite IH, hexdigit_upper_isalnum; [reflexivity |].
  apply N.mod_lt. discriminate.
Qed.

Lemma hex_digits_length (k : nat) (n : N) :
  String.length (uuid.hex_digits k n) = k.
Proof.
  induction k as [| k IH]; [reflexivity |].
  cbn [uuid.hex_digits String.length]. now rewrite IH.
Qed.

Lemma upper_substring (n m : nat) (s : string) :
  upper (substring n m s) = substring n m (upper s).
Proof.
  revert n m. induction s as [| c s IH]; intros n m.
  - destruct n, m; reflexivity.
  - destruct n as [| n]; [destruct m as [| m] |]; simpl;
      rewrite ?IH; reflexivity.
Qed.

Lemma upper_length (s : string) : String.length (upper s) = String.length s.
Proof. induction s as [| c s IH]; simpl; congruence. Qed.

Lemma prefix_isalnum (m : nat) (s : string) :
  isalnum_all s = true -> isalnum_all (substring 0 m s) = true.
Proof.
  revert m. induction s as [| c s IH]; intros m H.
  - destruct m; reflexivity.
  - destruct m as [| m]; [reflexivity |]. simpl in *.
    apply andb_true_iff in H. destruct H as [Hc Hs].
    rewrite Hc, (IH m Hs). reflexivity.
Qed.

Lemma prefix_length (m : nat) (s : string) :
  (m <= String.length s)%nat -> String.length (substring 0 m s) = m.
Proof.
  revert m. induction s as [| c s IH]; intros m H.
  - simpl in H. assert (m = O) by lia. subst. reflexivity.
  - destruct m as [| m]; [reflexivity |]. simpl in *.
    rewrite IH; lia.
Qed.

(** C7 (as amended).  When no constraint of the table is violated and the
    initial balance, rounded to two decimals, fits the column,
    [create_account] persists a new row whose balance is the rounded initial
    balance (equal to the initial balance when that has at most two
    fractional digits; 1000.00 when the request omits it), with
    [is_active = True], the text of a newly drawn UUID as id and "ACC"
    followed by ten alphanumeric characters as account number, and returns
    it; the sign of the initial balance is not looked at. *)
Theorem create_account_persists (r1 r2 : N)
    (account_data : BankAccountCreate.t) (rows : list BankAccount.t) :
  let account :=
    {| BankAccount.id := uuid.to_str (uuid.uuid4 r1);
       BankAccount.user_id := BankAccountCreate.user_id account_data;
       BankAccount.account_number :=
         "ACC" ++ upper (substring 0 10 (uuid.hex (uuid.uuid4 r2)));
       BankAccount.balance :=
         stored_as (BankAccountCreate.initial_balance account_data);
       BankAccount.currency := BankAccountCreate.currency account_data;
       BankAccount.is_active := true |} in
  conflicts account rows = false ->
  fits_column (BankAccountCreate.initial_balance account_data) = true ->
  serve (create_account r1 r2 account_data) rows
  = (Ok account, (rows ++ [account])%list)
  /\ lookup (BankAccountCreate.user_id account_data)
            (snd (serve (create_account r1 r2 account_data) rows))
     = Ok (Some account)
  /\ (in_cents (BankAccountCreate.initial_balance account_data) = true ->
      Decimal_eq (BankAccount.balance account)
                 (BankAccountCreate.initial_balance account_data) = true)
  /\ (lt (BankAccountCreate.initial_balance account_data) Decimal_0 = true ->
      in_cents (BankAccountCreate.initial_balance account_data) = true ->
      lt (BankAccount.balance account) Decimal_0 = true)
  /\ BankAccount.is_active account = true
  /\ (forall r, In r rows -> BankAccount.id r <> BankAccount.id account)
  /\ (exists suffix,
        BankAccount.account_number account = "ACC" ++ suffix
        /\ String.length suffix = 10%nat
        /\ isalnum_all suffix = true)
  /\ (forall user_id currency,
        BankAccountCreate.initial_balance
          (BankAccountCreate.new user_id None currency) = Decimal_1000_00
        /\ stored_as Decimal_1000_00 = Decimal_1000_00)
  /\ (forall user_id b currency,
        BankAccountCreate.initial_balance
          (BankAccountCreate.new user_id (Some b) currency) = b).
Proof.
  intros account Hc Hfit.
  assert (Hrun : serve (create_account r1 r2 account_data) rows
                 = (Ok account, (rows ++ [account])%list)).
  { pose proof (create_account_run r1 r2 account_data rows) as H.
    cbv zeta in H. unfold numeric_10_2 in H. rewrite Hfit in H.
    change (BankAccount.with_balance _ (stored_as _)) with account in H.
    change (conflicts _ rows) with (conflicts account rows) in H.
    rewrite Hc in H. exact H. }
  rewrite Hrun. cbn [snd].
  split; [reflexivity |].
  split; [exact (lookup_fresh account rows Hc) |].
  split; [intros Hin; exact (stored_as_value _ Hin) |].
  split.
  { intros Hneg Hin. apply (lt_hundredths _ Decimal_0 Hin eq_refl) in Hneg.
    apply (lt_hundredths
             (stored_as (BankAccountCreate.initial_balance account_data))
             Decimal_0 eq_refl eq_refl).
    rewrite hundredths_stored_as. exact Hneg. }
  split; [reflexivity |].
  split; [intros r Hin; exact (conflicts_id account r rows Hc Hin) |].
  split.
  { exists (upper (substring 0 10 (uuid.hex (uuid.uuid4 r2)))).
    split; [reflexivity |]. split.
    - rewrite upper_length, prefix_length; [reflexivity |].
      unfold uuid.hex. rewrite hex_digits_length. lia.
    - rewrite upper_substring. apply prefix_isalnum.
      apply hex_digits_upper_isalnum. }
  split; [intros; split; reflexivity | reflexivity].
Qed.

Lemma create_account_persists_witness :
  serve (create_account
           1512366075204170929049582354406559215
           338770000845734292534325025077361652240
           (BankAccountCreate.new "u1" (Some (mkDecimal true 500 (-2))) None))
        [account_of "u0" Decimal_100_00 true]
  = (Ok {| BankAccount.id := "01234567-89ab-4def-8123-456789abcdef";
           BankAccount.user_id := "u1";
           BankAccount.account_number := "ACCFEDCBA9876";
           BankAccount.balance := mkDecimal true 500 (-2);
           BankAccount.currency := "USD";
           BankAccount.is_active := true |},
     [account_of "u0" Decimal_100_00 true;
      {| BankAccount.id := "01234567-89ab-4def-8123-456789abcdef";
         BankAccount.user_id := "u1";
         BankAccount.account_number := "ACCFEDCBA9876";
         BankAccount.balance := mkDecimal true 500 (-2);
         BankAccount.currency := "USD";
         BankAccount.is_active := true |}]).
Proof.
  apply (create_account_persists
           1512366075204170929049582354406559215
           338770000845734292534325025077361652240
           (BankAccountCreate.new "u1" (Some (mkDecimal true 500 (-2))) None)
           [account_of "u0" Decimal_100_00 true]);
    reflexivity.
Defined.

(** C7 (as stated) fails.  An initial balance of 0.005 is persisted and
    returned as 0.01, and an initial balance of 100000000 makes the INSERT
    raise although no constraint of the table is violated. *)
Lemma create_account_balance_differs :
  (exists account,
      serve (create_account 7 8
               (BankAccountCreate.new "u1" (Some (mkDecimal false 5 (-3)))
                  None)) []
      = (Ok account, [account])
      /\ BankAccount.balance account = mkDecimal false 1 (-2)
      /\ Decimal_eq (BankAccount.balance account) (mkDecimal false 5 (-3))
         = false)
  /\ serve (create_account 7 8
              (BankAccountCreate.new "u1" (Some (mkDecimal false 100000000 0))
                 None)) []
     = (Raise DBAPIError, []).
Proof.
  split.
  - eexists. split; [vm_compute; reflexivity |]. split; reflexivity.
  - vm_compute. reflexivity.
Qed.

(** ** The scenario of the specification *)

Lemma scenario_from (i n c : string) :
  let a := BankAccount.mk i "u1" n Decimal_1000_00 c true in
  serve (debit_account "u1" (mkDecimal false 30000 (-2))) [a]
  = (Ok (true, "Transaction successful", mkDecimal false 70000 (-2)),
     [BankAccount.with_balance a (mkDecimal false 70000 (-2))])
  /\ serve (debit_account "u1" (mkDecimal false 80000 (-2)))
           [BankAccount.with_balance a (mkDecimal false 70000 (-2))]
     = (Ok (false,
            "Insufficient balance. Available: 700.00, Required: 800.00",
            mkDecimal false 70000 (-2)),
        [BankAccount.with_balance a (mkDecimal false 70000 (-2))])
  /\ serve (credit_account "u1" (mkDecimal false 5000 (-2)))
           [BankAccount.with_balance a (mkDecimal false 70000 (-2))]
     = (Ok (true, "Transaction successful", mkDecimal false 75000 (-2)),
        [BankAccount.with_balance a (mkDecimal false 75000 (-2))]).
Proof.
  intros a. rewrite !debit_account_run, credit_account_run.
  rewrite !lookup_select. unfold a.
  cbn [select_by_user_id filter BankAccount.user_id BankAccount.with_balance
       BankAccount.is_active BankAccount.balance negb].
  change (String.eqb "u1" "u1") with true. cbv iota.
  change (lt Decimal_1000_00 (mkDecimal false 30000 (-2))) with false.
  change (lt (mkDecimal false 70000 (-2)) (mkDecimal false 80000 (-2)))
    with true.
  change (numeric_10_2 (sub Decimal_1000_00 (mkDecimal false 30000 (-2))))
    with (Ok (mkDecimal false 70000 (-2))).
  change (numeric_10_2
            (add (mkDecimal false 70000 (-2)) (mkDecimal false 5000 (-2))))
    with (Ok (mkDecimal false 75000 (-2))).
  cbv iota. unfold update_balance.
  cbn [map BankAccount.id BankAccount.with_balance BankAccount.balance].
  rewrite !String.eqb_refl. repeat split; reflexivity.
Qed.

(** C5.  After [create_account] for "u1" with 1000.00 on an empty table:
    a debit of 300.00 returns (True, "Transaction successful", 700.00); a
    debit of 800.00 then returns (False, "Insufficient balance. Available:
    700.00, Required: 800.00", 700.00) and leaves the balance at 700.00; a
    credit of 50.00 then returns (True, "Transaction successful", 750.00). *)
Theorem ledger_scenario (r1 r2 : N) :
  exists account,
    serve (create_account r1 r2
             (BankAccountCreate.new "u1" (Some Decimal_1000_00) None)) []
    = (Ok account, [account])
    /\ BankAccount.user_id account = "u1"
    /\ BankAccount.balance account = Decimal_1000_00
    /\ BankAccount.is_active account = true
    /\ serve (debit_account "u1" (mkDecimal false 30000 (-2))) [account]
       = (Ok (true, "Transaction successful", mkDecimal false 70000 (-2)),
          [BankAccount.with_balance account (mkDecimal false 70000 (-2))])
    /\ serve (debit_account "u1" (mkDecimal false 80000 (-2)))
             [BankAccount.with_balance account (mkDecimal false 70000 (-2))]
       = (Ok (false,
              "Insufficient balance. Available: 700.00, Required: 800.00",
              mkDecimal false 70000 (-2)),
          [BankAccount.with_balance account (mkDecimal false 70000 (-2))])
    /\ serve (credit_account "u1" (mkDecimal false 5000 (-2)))
             [BankAccount.with_balance account (mkDecimal false 70000 (-2))]
       = (Ok (true, "Transaction successful", mkDecimal false 75000 (-2)),
          [BankAccount.with_balance account (mkDecimal false 75000 (-2))]).
Proof.
  pose proof (create_account_run r1 r2
                (BankAccountCreate.new "u1" (Some Decimal_1000_00) None) [])
    as Hrun.
  cbv zeta in Hrun.
  change (numeric_10_2
            (BankAccountCreate.initial_balance
               (BankAccountCreate.new "u1" (Some Decimal_1000_00) None)))
    with (Ok Decimal_1000_00) in Hrun.
  cbn [conflicts existsb app] in Hrun.
  rewrite Hrun. clear Hrun.
  eexists. split; [reflexivity |].
  split; [reflexivity |]. split; [reflexivity |]. split; [reflexivity |].
  apply (scenario_from (uuid.to_str (uuid.uuid4 r1))
           ("ACC" ++ upper (substring 0 10 (uuid.hex (uuid.uuid4 r2))))
           "USD").
Qed.

(** ** Reads *)

Lemma get_account_by_id_run (account_id : string) (s : AsyncSession) :
  get_account_by_id account_id s
  = (match select_by_id account_id (table s) with
     | [] => Ok None
     | [r] => Ok (Some r)
     | _ => Raise MultipleResultsFound
     end, s).
Proof.
  unfold get_account_by_id, bind, db_execute, scalar_one_or_none.
  destruct (select_by_id account_id (table s)) as [| r [| r' l]]; reflexivity.
Qed.

(** C8.  [get_account_by_user_id] (and [get_account_by_id]) leaves the
    session, its table included, as it found it, and a second call right
    after the first returns the same account, field by field. *)
Theorem get_account_pure (key : string) (s : AsyncSession) :
  snd (get_account_by_user_id key s) = s
  /\ fst (get_account_by_user_id key (snd (get_account_by_user_id key s)))
     = fst (get_account_by_user_id key s)
  /\ snd (get_account_by_id key s) = s
  /\ fst (get_account_by_id key (snd (get_account_by_id key s)))
     = fst (get_account_by_id key s)
  /\ snd (serve (get_account_by_user_id key) (table s)) = table s.
Proof.
  unfold serve.
  rewrite !get_account_run, !get_account_by_id_run. simpl.
  repeat split; reflexivity.
Qed.

(** ** Amounts are not validated *)

Lemma hundredths_0 : hundredths Decimal_0 = 0.
Proof. reflexivity. Qed.








(** ** Two debits in flight *)

(** Resumed three times with nothing in between, a call is the request of
    [debit_account]. *)
Lemma resume_to_return (user_id : string) (amount : Decimal)
    (rows : list BankAccount.t) :
  (let '(t1, rows1) := resume (Called user_id amount) rows in
   let '(t2, rows2) := resume t1 rows1 in
   resume t2 rows2)
  = (Returned (fst (serve (debit_account user_id amount) rows)),
     snd (serve (debit_account user_id amount) rows)).
Proof.
  rewrite debit_account_run, lookup_select.
  unfold resume at 1. rewrite get_account_run. cbn [table session_of].
  destruct (select_by_user_id user_id rows) as [| a [| a' l]] eqn:Hsel;
    try reflexivity.
  destruct (negb (BankAccount.is_active a)); [reflexivity |].
  destruct (lt (BankAccount.balance a) amount); [reflexivity |].
  unfold set_balance, resume, db_commit, db_refresh, session_of.
  cbn [table unit_of_work app flush BankAccount.balance
       BankAccount.with_balance fst snd].
  destruct (numeric_10_2 (sub (BankAccount.balance a) amount)) as [v | e];
    [| reflexivity].
  destruct (find_update_balance a (BankAccount.with_balance a v) rows)
    as (r & Hfind & Hbal);
    [apply (select_In user_id), Hsel | reflexivity |].
  cbn [table unit_of_work BankAccount.id BankAccount.with_balance
       BankAccount.balance fst snd] in Hfind, Hbal |- *.
  change (BankAccount.with_balance
            (BankAccount.with_balance a (sub (BankAccount.balance a) amount))
            v)
    with (BankAccount.with_balance a v).
  rewrite Hfind, Hbal. reflexivity.
Qed.


Lemma first_to_return (user_id : string) (amount : Decimal)
    (rows : list BankAccount.t) (t : debit_task) :
  interleave [true; true; true]
    {| shared := rows; first := Called user_id amount; second := t |}
  = {| shared := snd (serve (debit_account user_id amount) rows);
       first := Returned (fst (serve (debit_account user_id amount) rows));
       second := t |}.
Proof.
  pose proof (resume_to_return user_id amount rows) as H.
  unfold interleave, schedule_one. cbn [shared first second].
  destruct (resume (Called user_id amount) rows) as [t1 rows1].
  cbn [shared first second].
  destruct (resume t1 rows1) as [t2 rows2].
  cbn [shared first second]. rewrite H. reflexivity.
Qed.

Lemma second_to_return (user_id : string) (amount : Decimal)
    (rows : list BankAccount.t) (t : debit_task) :
  interleave [false; false; false]
    {| shared := rows; first := t; second := Called user_id amount |}
  = {| shared := snd (serve (debit_account user_id amount) rows);
       first := t;
       second := Returned (fst (serve (debit_account user_id amount) rows)) |}.
Proof.
  pose proof (resume_to_return user_id amount rows) as H.
  unfold interleave, schedule_one. cbn [shared first second].
  destruct (resume (Called user_id amount) rows) as [t1 rows1].
  cbn [shared first second].
  destruct (resume t1 rows1) as [t2 rows2].
  cbn [shared first second]. rewrite H. reflexivity.
Qed.

Lemma interleave_app (l1 l2 : list bool) (c : flight) :
  interleave (l1 ++ l2) c = interleave l2 (interleave l1 c).
Proof. revert c. induction l1 as [| w l1 IH]; intros c; simpl; auto. Qed.

(** Two requests of 60.00, one after the other, on a balance of 100.00. *)
Lemma two_debits_in_turn (user_id : string) (rows : list BankAccount.t)
    (a : BankAccount.t) :
  lookup user_id rows = Ok (Some a) ->
  BankAccount.is_active a = true ->
  BankAccount.balance a = Decimal_100_00 ->
  let rows' := update_balance (BankAccount.with_balance a Decimal_40_00) rows in
  serve (debit_account user_id Decimal_60_00) rows
  = (Ok (true, "Transaction successful", Decimal_40_00), rows')
  /\ serve (debit_account user_id Decimal_60_00) rows'
     = (Ok (false, "Insufficient balance. Available: 40.00, Required: 60.00",
            Decimal_40_00), rows')
  /\ lookup user_id rows' = Ok (Some (BankAccount.with_balance a Decimal_40_00)).
Proof.
  intros Hlook Hact Hbal rows'.
  pose proof (lookup_update_balance user_id rows a Decimal_40_00 Hlook)
    as Hlook'.
  fold rows' in Hlook'.
  rewrite !debit_account_run, Hlook, Hlook'. cbn [BankAccount.with_balance
    BankAccount.is_active BankAccount.balance].
  rewrite Hact, Hbal. repeat split; reflexivity.
Qed.

(** C6 (as amended).  On an active account with balance 100.00, two
    [debit_account] calls of 60.00 that run one after the other (in either
    order) end with exactly one success: the call that runs first returns
    40.00, the other fails with insufficient balance, and the persisted
    balance is 40.00. *)
Theorem serial_debits_one_succeeds (user_id : string)
    (rows : list BankAccount.t) (a : BankAccount.t) :
  lookup user_id rows = Ok (Some a) ->
  BankAccount.is_active a = true ->
  BankAccount.balance a = Decimal_100_00 ->
  let start :=
    {| shared := rows;
       first := Called user_id Decimal_60_00;
       second := Called user_id Decimal_60_00 |} in
  let won := Returned (Ok (true, "Transaction successful", Decimal_40_00)) in
  let lost :=
    Returned
      (Ok (false, "Insufficient balance. Available: 40.00, Required: 60.00",
           Decimal_40_00)) in
  (first (interleave [true; true; true; false; false; false] start) = won
   /\ second (interleave [true; true; true; false; false; false] start) = lost
   /\ lookup user_id
        (shared (interleave [true; true; true; false; false; false] start))
      = Ok (Some (BankAccount.with_balance a Decimal_40_00)))
  /\ (first (interleave [false; false; false; true; true; true] start) = lost
      /\ second (interleave [false; false; false; true; true; true] start)
         = won
      /\ lookup user_id
           (shared (interleave [false; false; false; true; true; true] start))
         = Ok (Some (BankAccount.with_balance a Decimal_40_00)))
  /\ succeeded won = true /\ succeeded lost = false.
Proof.
  intros Hlook Hact Hbal start won lost.
  destruct (two_debits_in_turn user_id rows a Hlook Hact Hbal)
    as (H1 & H2 & H3).
  cbv zeta in H1, H2, H3.
  change [true; true; true; false; false; false]
    with ([true; true; true] ++ [false; false; false])%list.
  change [false; false; false; true; true; true]
    with ([false; false; false] ++ [true; true; true])%list.
  rewrite !interleave_app. unfold start.
  repeat (rewrite first_to_return || rewrite second_to_return).
  rewrite H1. cbn [fst snd]. rewrite H2. cbn [fst snd first second shared].
  repeat split; assumption || reflexivity.
Qed.

Lemma serial_debits_one_succeeds_witness :
  second
    (interleave [true; true; true; false; false; false]
       {| shared := [account_of "u1" Decimal_100_00 true];
          first := Called "u1" Decimal_60_00;
          second := Called "u1" Decimal_60_00 |})
  = Returned
      (Ok (false, "Insufficient balance. Available: 40.00, Required: 60.00",
           Decimal_40_00)).
Proof.
  apply (serial_debits_one_succeeds "u1"
           [account_of "u1" Decimal_100_00 true]
           (account_of "u1" Decimal_100_00 true)); reflexivity.
Defined.

(** C6 (as stated) fails: when both calls have read the balance of 100.00
    before either commits, both pass the sufficiency test, both succeed, and
    the persisted balance is 40.00. *)
Lemma concurrent_debits_both_succeed :
  let c :=
    interleave [true; false; true; false; true; false]
      {| shared := [account_of "u1" Decimal_100_00 true];
         first := Called "u1" Decimal_60_00;
         second := Called "u1" Decimal_60_00 |} in
  returned (first c) = true /\ returned (second c) = true
  /\ first c = Returned (Ok (true, "Transaction successful", Decimal_40_00))
  /\ second c = Returned (Ok (true, "Transaction successful", Decimal_40_00))
  /\ shared c = [account_of "u1" Decimal_40_00 true]
  /\ ~ (succeeded (first c) = true <-> succeeded (second c) = false).
Proof.
  vm_compute. repeat split; try reflexivity.
  intros [H _]. specialize (H eq_refl). discriminate.
Qed.

(** * Further properties of [crud.py] *)

(** ** Constraints of the table *)

Lemma existsb_eqb_In (x : string) (l : list string) :
  existsb (String.eqb x) l = true <-> In x l.
Proof.
  rewrite existsb_exists. split.
  - intros (y & Hin & Heq). apply String.eqb_eq in Heq. now subst.
  - intros Hin. exists x. split; [exact Hin | apply String.eqb_refl].
Qed.

Lemma distinct_NoDup (l : list string) : distinct l = true <-> NoDup l.
Proof.
  induction l as [| x l IH]; simpl.
  - split; [constructor | reflexivity].
  - rewrite andb_true_iff, negb_true_iff, IH, NoDup_cons_iff.
    rewrite <- not_true_iff_false, existsb_eqb_In. reflexivity.
Qed.

Lemma table_ok_NoDup (rows : list BankAccount.t) :
  table_ok rows = true
  <-> NoDup (map BankAccount.id rows)
      /\ NoDup (map BankAccount.user_id rows)
      /\ NoDup (map BankAccount.account_number rows).
Proof.
  unfold table_ok. rewrite !andb_true_iff, !distinct_NoDup. tauto.
Qed.

Lemma update_balance_columns (a : BankAccount.t) (rows : list BankAccount.t) :
  map BankAccount.id (update_balance a rows) = map BankAccount.id rows
  /\ map BankAccount.user_id (update_balance a rows)
     = map BankAccount.user_id rows
  /\ map BankAccount.account_number (update_balance a rows)
     = map BankAccount.account_number rows.
Proof.
  unfold update_balance. rewrite !map_map.
  repeat split; apply map_ext; intros r;
    destruct (String.eqb (BankAccount.id r) (BankAccount.id a)); reflexivity.
Qed.

Lemma table_ok_update_balance (a : BankAccount.t)
    (rows : list BankAccount.t) :
  table_ok (update_balance a rows) = table_ok rows.
Proof.
  unfold table_ok.
  destruct (update_balance_columns a rows) as (-> & -> & ->). reflexivity.
Qed.

Lemma NoDup_snoc (x : string) (l : list string) :
  NoDup l -> ~ In x l -> NoDup (l ++ [x]).
Proof.
  intros Hl Hx. apply NoDup_app; [exact Hl | repeat constructor; intros [] |].
  intros y Hy [<- | []]. contradiction.
Qed.

Lemma conflicts_false (a : BankAccount.t) (rows : list BankAccount.t) :
  conflicts a rows = false
  <-> ~ In (BankAccount.id a) (map BankAccount.id rows)
      /\ ~ In (BankAccount.user_id a) (map BankAccount.user_id rows)
      /\ ~ In (BankAccount.account_number a)
              (map BankAccount.account_number rows).
Proof.
  unfold conflicts. induction rows as [| r rows IH]; simpl.
  - tauto.
  - rewrite !orb_false_iff, IH, !String.eqb_neq. intuition congruence.
Qed.

Lemma table_ok_insert (a : BankAccount.t) (rows : list BankAccount.t) :
  table_ok rows = true -> conflicts a rows = false ->
  table_ok (rows ++ [a]) = true.
Proof.
  rewrite !table_ok_NoDup, conflicts_false, !map_app. simpl.
  intros (H1 & H2 & H3) (N1 & N2 & N3).
  repeat split; apply NoDup_snoc; assumption.
Qed.


Lemma select_by_id_at_most_one (account_id : string)
    (rows : list BankAccount.t) :
  NoDup (map BankAccount.id rows) ->
  select_by_id account_id rows = []
  \/ exists a, select_by_id account_id rows = [a].
Proof.
  unfold select_by_id.
  induction rows as [| r rows IH]; simpl; intros Hnd; [now left |].
  apply NoDup_cons_iff in Hnd. destruct Hnd as [Hr Hnd].
  destruct (String.eqb_spec (BankAccount.id r) account_id) as [Heq | Hne].
  - right. exists r. f_equal.
    destruct (filter _ rows) as [| r' l] eqn:Hf; [reflexivity |].
    exfalso. apply Hr.
    assert (Hin : In r' (filter
                           (fun r => String.eqb (BankAccount.id r) account_id)
                           rows)) by (rewrite Hf; now left).
    apply filter_In in Hin. destruct Hin as [Hin Hu].
    apply String.eqb_eq in Hu. rewrite Heq, <- Hu.
    apply in_map, Hin.
  - apply IH, Hnd.
Qed.

(** A request of [debit_account] or [credit_account] either leaves the table
    as it was or has written, for an active account, a value that passed
    the column type. *)
Lemma perform_run (user_id : string) (op : operation)
    (rows : list BankAccount.t) :
  snd (serve (perform user_id op) rows) = rows
  \/ exists a raw,
       lookup user_id rows = Ok (Some a)
       /\ BankAccount.is_active a = true
       /\ fits_column raw = true
       /\ snd (serve (perform user_id op) rows)
          = update_balance (BankAccount.with_balance a (stored_as raw)) rows
       /\ fst (serve (perform user_id op) rows)
          = Ok (true, "Transaction successful", stored_as raw)
       /\ raw = match op with
                | Debit amount => sub (BankAccount.balance a) amount
                | Credit amount => add (BankAccount.balance a) amount
                end
       /\ match op with
          | Debit amount => lt (BankAccount.balance a) amount = false
          | Credit _ => True
          end.
Proof.
  destruct op as [amount | amount]; simpl perform;
    [rewrite debit_account_run | rewrite credit_account_run];
    destruct (lookup user_id rows) as [[a |] | e]; try (now left);
    destruct (BankAccount.is_active a) eqn:Hact; simpl negb; cbv iota;
    try (now left).
  - destruct (lt (BankAccount.balance a) amount) eqn:Hlt; [now left |].
    unfold numeric_10_2.
    destruct (fits_column (sub (BankAccount.balance a) amount)) eqn:Hfit;
      [| now left].
    right. exists a, (sub (BankAccount.balance a) amount). auto 10.
  - unfold numeric_10_2.
    destruct (fits_column (add (BankAccount.balance a) amount)) eqn:Hfit;
      [| now left].
    right. exists a, (add (BankAccount.balance a) amount). auto 10.
Qed.

(** A row of the same user id makes [create_account] raise: the overflow of
    the column when the initial balance does not fit, the violated
    constraint otherwise. *)
Lemma insert_refused (r1 r2 : N) (account_data : BankAccountCreate.t)
    (rows : list BankAccount.t) (a : BankAccount.t) :
  In a rows ->
  BankAccount.user_id a = BankAccountCreate.user_id account_data ->
  serve (create_account r1 r2 account_data) rows
  = (Raise (if fits_column (BankAccountCreate.initial_balance account_data)
            then IntegrityError else DBAPIError), rows).
Proof.
  intros Hin Huser.
  pose proof (create_account_run r1 r2 account_data rows) as Hrun.
  cbv zeta in Hrun. rewrite Hrun. clear Hrun. unfold numeric_10_2.
  destruct (fits_column (BankAccountCreate.initial_balance account_data));
    [| reflexivity].
  match goal with
  | |- (if ?c then _ else _) = _ => assert (Hc : c = true)
  end.
  { unfold conflicts. apply existsb_exists. exists a. split; [exact Hin |].
    cbn [BankAccount.user_id]. rewrite Huser, String.eqb_refl.
    apply orb_true_iff. left. apply orb_true_r. }
  rewrite Hc. reflexivity.
Qed.

(** X1.  [create_account] for a user id that already has a row raises,
    whatever UUIDs are drawn, and writes nothing: [IntegrityError] when the
    initial balance fits the column, [DBAPIError] (numeric overflow) when
    it does not. *)
Theorem create_account_conflict (r1 r2 : N)
    (account_data : BankAccountCreate.t) (rows : list BankAccount.t)
    (a : BankAccount.t) :
  In a rows ->
  BankAccount.user_id a = BankAccountCreate.user_id account_data ->
  serve (create_account r1 r2 account_data) rows
  = (Raise (if fits_column (BankAccountCreate.initial_balance account_data)
            then IntegrityError else DBAPIError), rows).
Proof. exact (insert_refused r1 r2 account_data rows a). Qed.

Lemma create_account_conflict_witness :
  serve (create_account 7 8 (BankAccountCreate.new "u1" None None))
        [account_of "u1" Decimal_100_00 false]
  = (Raise IntegrityError, [account_of "u1" Decimal_100_00 false]).
Proof.
  apply (create_account_conflict 7 8 (BankAccountCreate.new "u1" None None)
           [account_of "u1" Decimal_100_00 false]
           (account_of "u1" Decimal_100_00 false)).
  - simpl. left. reflexivity.
  - reflexivity.
Defined.

(** X2.  After [create_account] has returned an account, a second
    [create_account] for the same user id raises ([IntegrityError] when its
    initial balance fits the column, [DBAPIError] when it does not) and
    leaves the table as the first call left it. *)
Theorem create_account_twice (r1 r2 r1' r2' : N)
    (account_data account_data' : BankAccountCreate.t)
    (rows rows' : list BankAccount.t) (account : BankAccount.t) :
  serve (create_account r1 r2 account_data) rows = (Ok account, rows') ->
  BankAccountCreate.user_id account_data'
  = BankAccountCreate.user_id account_data ->
  serve (create_account r1' r2' account_data') rows'
  = (Raise (if fits_column (BankAccountCreate.initial_balance account_data')
            then IntegrityError else DBAPIError), rows')
  /\ lookup (BankAccountCreate.user_id account_data) rows'
     = Ok (Some account).
Proof.
  intros Hfirst Huser.
  pose proof (create_account_run r1 r2 account_data rows) as Hrun.
  cbv zeta in Hrun.
  match type of Hrun with
  | context [conflicts ?acc rows] => remember acc as account0 eqn:Hacc
  end.
  assert (Huser0 : BankAccount.user_id account0
                   = BankAccountCreate.user_id account_data)
    by (rewrite Hacc; reflexivity).
  clear Hacc. rewrite Hfirst in Hrun.
  destruct (numeric_10_2 _) as [b | e]; [| discriminate].
  destruct (conflicts account0 rows) eqn:Hc; [discriminate |].
  inversion Hrun; subst account rows'; clear Hrun.
  rewrite <- (conflicts_with_balance account0 b) in Hc.
  split.
  - apply (insert_refused r1' r2' account_data' _
             (BankAccount.with_balance account0 b)).
    + apply in_or_app. right. now left.
    + rewrite Huser. exact Huser0.
  - rewrite <- Huser0. apply (lookup_fresh _ _ Hc).
Qed.

Lemma create_account_twice_witness :
  serve (create_account 9 10
           (BankAccountCreate.new "u1" (Some Decimal_40_00) None))
        (snd (serve (create_account 7 8
                       (BankAccountCreate.new "u1" None None)) []))
  = (Raise IntegrityError,
     snd (serve (create_account 7 8
                   (BankAccountCreate.new "u1" None None)) [])).
Proof.
  eapply (create_account_twice 7 8 9 10
            (BankAccountCreate.new "u1" None None)
            (BankAccountCreate.new "u1" (Some Decimal_40_00) None) []).
  - vm_compute. reflexivity.
  - reflexivity.
Defined.

(** X3.  [create_account] keeps the constraints of the table: no id, user id
    or account number occurs twice after it, whether it returns or raises. *)
Theorem create_account_keeps_constraints (r1 r2 : N)
    (account_data : BankAccountCreate.t) (rows : list BankAccount.t) :
  table_ok rows = true ->
  table_ok (snd (serve (create_account r1 r2 account_data) rows)) = true.
Proof.
  intros Hok.
  pose proof (create_account_run r1 r2 account_data rows) as Hrun.
  cbv zeta in Hrun. rewrite Hrun. clear Hrun.
  match goal with
  | |- context [conflicts ?acc rows] =>
      generalize acc; intros account
  end.
  destruct (numeric_10_2 _) as [b | e]; [| exact Hok].
  destruct (conflicts account rows) eqn:Hc; cbn [snd]; [exact Hok |].
  apply table_ok_insert; [exact Hok |].
  rewrite conflicts_with_balance. exact Hc.
Qed.

Lemma create_account_keeps_constraints_witness :
  table_ok
    (snd (serve (create_account 7 8 (BankAccountCreate.new "u2" None None))
                [account_of "u1" Decimal_100_00 true])) = true.
Proof.
  apply (create_account_keeps_constraints 7 8
           (BankAccountCreate.new "u2" None None)
           [account_of "u1" Decimal_100_00 true]).
  reflexivity.
Defined.

(** X4.  [debit_account] and [credit_account] add and remove no row and
    change none of the columns [id], [user_id], [account_number],
    [currency] and [is_active] of any row; the constraints of the table
    hold after the call exactly if they held before. *)
Theorem mutation_writes_balance_only (user_id : string) (op : operation)
    (rows : list BankAccount.t) :
  map (fun r => BankAccount.with_balance r Decimal_0)
      (snd (serve (perform user_id op) rows))
  = map (fun r => BankAccount.with_balance r Decimal_0) rows
  /\ List.length (snd (serve (perform user_id op) rows)) = List.length rows
  /\ table_ok (snd (serve (perform user_id op) rows)) = table_ok rows.
Proof.
  destruct (perform_run user_id op rows)
    as [-> | (a & raw & _ & _ & _ & -> & _)]; [auto |].
  split; [| split].
  - unfold update_balance. rewrite map_map. apply map_ext. intros r.
    destruct (String.eqb (BankAccount.id r) (BankAccount.id _)); reflexivity.
  - apply update_balance_length.
  - apply table_ok_update_balance.
Qed.



(** With unique ids a row is known by its id. *)
Lemma NoDup_id_row (a r : BankAccount.t) (rows : list BankAccount.t) :
  NoDup (map BankAccount.id rows) -> In a rows -> In r rows ->
  BankAccount.id r = BankAccount.id a -> r = a.
Proof.
  induction rows as [| x rows IH]; simpl; intros Hnd Ha Hr Heq; [contradiction |].
  apply NoDup_cons_iff in Hnd. destruct Hnd as [Hx Hnd].
  destruct Ha as [-> | Ha], Hr as [-> | Hr]; auto.
  - exfalso. apply Hx. rewrite <- Heq. apply in_map, Hr.
  - exfalso. apply Hx. rewrite Heq. apply in_map, Ha.
Qed.

(** X6.  On a table with unique ids, a debit or credit for one user leaves
    the account of every other user as it was. *)
Theorem mutation_keeps_other_accounts (user_id other : string)
    (op : operation) (rows : list BankAccount.t) :
  table_ok rows = true ->
  other <> user_id ->
  lookup other (snd (serve (perform user_id op) rows)) = lookup other rows.
Proof.
  intros Hok Hne. apply table_ok_NoDup in Hok. destruct Hok as (Hid & _).
  destruct (perform_run user_id op rows)
    as [-> | (a & raw & Hlook & _ & _ & -> & _)]; [reflexivity |].
  set (value := stored_as raw).
  rewrite !lookup_select, select_update_balance.
  apply lookup_Some, select_In in Hlook. destruct Hlook as [Hain Hauser].
  replace (update_balance (BankAccount.with_balance a value)
             (select_by_user_id other rows))
    with (select_by_user_id other rows); [reflexivity |].
  unfold update_balance. rewrite <- (map_id (select_by_user_id other rows)) at 1.
  apply map_ext_in. intros r Hr. symmetry.
  apply filter_In in Hr. destruct Hr as [Hrin Hruser].
  apply String.eqb_eq in Hruser.
  destruct (String.eqb_spec (BankAccount.id r)
              (BankAccount.id (BankAccount.with_balance a value)))
    as [Heq | _]; [| reflexivity].
  exfalso. apply Hne.
  rewrite <- Hruser, <- Hauser. f_equal.
  apply (NoDup_id_row a r rows Hid Hain Hrin Heq).
Qed.

Lemma mutation_keeps_other_accounts_witness :
  lookup "u0"
    (snd (serve (perform "u1" (Debit Decimal_60_00))
                [account_of "u0" Decimal_40_00 true;
                 account_of "u1" Decimal_100_00 true]))
  = lookup "u0" [account_of "u0" Decimal_40_00 true;
                 account_of "u1" Decimal_100_00 true].
Proof.
  apply (mutation_keeps_other_accounts "u1" "u0" (Debit Decimal_60_00)
           [account_of "u0" Decimal_40_00 true;
            account_of "u1" Decimal_100_00 true]).
  - reflexivity.
  - discriminate.
Defined.


(** ** How the operations compose *)

Lemma fits_column_hundredths (a b : Decimal) :
  hundredths a = hundredths b -> fits_column a = fits_column b.
Proof. unfold fits_column. intros ->. reflexivity. Qed.

(** One successful credit. *)
Lemma credit_step (user_id : string) (amount : Decimal)
    (rows : list BankAccount.t) (a : BankAccount.t) :
  lookup user_id rows = Ok (Some a) ->
  BankAccount.is_active a = true ->
  fits_column (add (BankAccount.balance a) amount) = true ->
  let a' := BankAccount.with_balance a
              (stored_as (add (BankAccount.balance a) amount)) in
  serve (credit_account user_id amount) rows
  = (Ok (true, "Transaction successful", BankAccount.balance a'),
     update_balance a' rows)
  /\ lookup user_id (update_balance a' rows) = Ok (Some a')
  /\ BankAccount.is_active a' = true.
Proof.
  intros Hlook Hact Hfit a'.
  rewrite credit_account_run, Hlook, Hact. unfold numeric_10_2.
  rewrite Hfit. cbn [negb]. split; [reflexivity |].
  split; [apply lookup_update_balance, Hlook | exact Hact].
Qed.

(** One successful debit. *)
Lemma debit_step (user_id : string) (amount : Decimal)
    (rows : list BankAccount.t) (a : BankAccount.t) :
  lookup user_id rows = Ok (Some a) ->
  BankAccount.is_active a = true ->
  lt (BankAccount.balance a) amount = false ->
  fits_column (sub (BankAccount.balance a) amount) = true ->
  let a' := BankAccount.with_balance a
              (stored_as (sub (BankAccount.balance a) amount)) in
  serve (debit_account user_id amount) rows
  = (Ok (true, "Transaction successful", BankAccount.balance a'),
     update_balance a' rows)
  /\ lookup user_id (update_balance a' rows) = Ok (Some a')
  /\ BankAccount.is_active a' = true.
Proof.
  intros Hlook Hact Hlt Hfit a'.
  rewrite debit_account_run, Hlook, Hact, Hlt. unfold numeric_10_2.
  rewrite Hfit. cbn [negb]. split; [reflexivity |].
  split; [apply lookup_update_balance, Hlook | exact Hact].
Qed.



(** X8.  For a balance that is a value of the column and an amount of at
    most two fractional digits: a debit that succeeded, followed by a
    credit of the same amount, restores the balance; the credit succeeds
    and the persisted balance equals the one before the debit. *)
Theorem debit_then_credit_restores (user_id : string) (amount : Decimal)
    (rows : list BankAccount.t) (a : BankAccount.t) :
  lookup user_id rows = Ok (Some a) ->
  BankAccount.is_active a = true ->
  in_cents (BankAccount.balance a) = true ->
  fits_column (BankAccount.balance a) = true ->
  in_cents amount = true ->
  lt (BankAccount.balance a) amount = false ->
  fits_column (sub (BankAccount.balance a) amount) = true ->
  exists b,
    fst (serve (credit_account user_id amount)
               (snd (serve (debit_account user_id amount) rows)))
    = Ok (true, "Transaction successful", b)
    /\ lookup user_id
         (snd (serve (credit_account user_id amount)
                     (snd (serve (debit_account user_id amount) rows))))
       = Ok (Some (BankAccount.with_balance a b))
    /\ Decimal_eq b (BankAccount.balance a) = true.
Proof.
  intros Hlook Hact Hb Hfitb Ha Hlt Hfit.
  destruct (debit_step user_id amount rows a Hlook Hact Hlt Hfit)
    as (Hrun1 & Hlook1 & Hact1).
  cbv zeta in Hrun1, Hlook1, Hact1. rewrite Hrun1. cbn [snd].
  set (v1 := stored_as (sub (BankAccount.balance a) amount)) in *.
  assert (Hh : hundredths (add v1 amount) = hundredths (BankAccount.balance a)).
  { rewrite hundredths_add by (reflexivity || assumption).
    unfold v1. rewrite hundredths_stored_as, hundredths_sub by assumption.
    lia. }
  assert (Hfit2 : fits_column (add v1 amount) = true)
    by (rewrite (fits_column_hundredths _ _ Hh); exact Hfitb).
  destruct (credit_step user_id amount _ _ Hlook1 Hact1 Hfit2)
    as (Hrun2 & Hlook2 & _).
  cbv zeta in Hrun2, Hlook2.
  cbn [BankAccount.balance BankAccount.with_balance] in Hrun2, Hlook2.
  rewrite Hrun2. cbn [fst snd].
  exists (stored_as (add v1 amount)).
  split; [reflexivity |]. split; [exact Hlook2 |].
  apply (Decimal_eq_hundredths _ _ (in_cents_stored_as _) Hb).
  rewrite hundredths_stored_as. exact Hh.
Qed.

Lemma debit_then_credit_restores_witness :
  exists b,
    fst (serve (credit_account "u1" (mkDecimal false 60 0))
               (snd (serve (debit_account "u1" (mkDecimal false 60 0))
                           [account_of "u1" Decimal_100_00 true])))
    = Ok (true, "Transaction successful", b)
    /\ lookup "u1"
         (snd (serve (credit_account "u1" (mkDecimal false 60 0))
                     (snd (serve (debit_account "u1" (mkDecimal false 60 0))
                                 [account_of "u1" Decimal_100_00 true]))))
       = Ok (Some (BankAccount.with_balance
                     (account_of "u1" Decimal_100_00 true) b))
    /\ Decimal_eq b Decimal_100_00 = true.
Proof.
  apply (debit_then_credit_restores "u1" (mkDecimal false 60 0)
           [account_of "u1" Decimal_100_00 true]
           (account_of "u1" Decimal_100_00 true)); reflexivity.
Defined.

(** X9.  For a balance and an amount of at most two fractional digits, the
    amount above zero, on an active account: a credit whose result fits the
    column persists a balance above the old one, and a debit that passes
    the sufficiency test and whose result fits the column persists a
    balance below the old one. *)
Theorem positive_amount_moves_balance (user_id : string) (amount : Decimal)
    (rows : list BankAccount.t) (a : BankAccount.t) :
  lookup user_id rows = Ok (Some a) ->
  BankAccount.is_active a = true ->
  in_cents (BankAccount.balance a) = true ->
  in_cents amount = true ->
  lt Decimal_0 amount = true ->
  (fits_column (add (BankAccount.balance a) amount) = true ->
   exists a',
     lookup user_id (snd (serve (credit_account user_id amount) rows))
     = Ok (Some a')
     /\ lt (BankAccount.balance a) (BankAccount.balance a') = true)
  /\ (lt (BankAccount.balance a) amount = false ->
      fits_column (sub (BankAccount.balance a) amount) = true ->
      exists a',
        lookup user_id (snd (serve (debit_account user_id amount) rows))
        = Ok (Some a')
        /\ lt (BankAccount.balance a') (BankAccount.balance a) = true).
Proof.
  intros Hlook Hact Hb Ha Hpos.
  apply (lt_hundredths Decimal_0 amount eq_refl Ha) in Hpos.
  rewrite hundredths_0 in Hpos. split.
  - intros Hfit.
    destruct (credit_step user_id amount rows a Hlook Hact Hfit)
      as (Hrun & Hlook1 & _).
    cbv zeta in Hrun, Hlook1. rewrite Hrun. cbn [snd].
    eexists. split; [exact Hlook1 |]. cbn [BankAccount.balance
      BankAccount.with_balance].
    apply (lt_hundredths _ _ Hb (in_cents_stored_as _)).
    rewrite hundredths_stored_as, hundredths_add by assumption. lia.
  - intros Hlt Hfit.
    destruct (debit_step user_id amount rows a Hlook Hact Hlt Hfit)
      as (Hrun & Hlook1 & _).
    cbv zeta in Hrun, Hlook1. rewrite Hrun. cbn [snd].
    eexists. split; [exact Hlook1 |]. cbn [BankAccount.balance
      BankAccount.with_balance].
    apply (lt_hundredths _ _ (in_cents_stored_as _) Hb).
    rewrite hundredths_stored_as, hundredths_sub by assumption. lia.
Qed.

Lemma positive_amount_moves_balance_witness :
  exists a',
    lookup "u1"
      (snd (serve (credit_account "u1" Decimal_60_00)
                  [account_of "u1" Decimal_100_00 true]))
    = Ok (Some a')
    /\ lt Decimal_100_00 (BankAccount.balance a') = true.
Proof.
  apply (positive_amount_moves_balance "u1" Decimal_60_00
           [account_of "u1" Decimal_100_00 true]
           (account_of "u1" Decimal_100_00 true)); reflexivity.
Defined.

(** X10.  Whatever the balance was, the balance a successful
    [debit_account] returns is the persisted one and is [>= 0]. *)
Theorem debit_success_is_nonneg (user_id : string) (amount : Decimal)
    (rows : list BankAccount.t) (msg : string) (b : Decimal) :
  fst (serve (debit_account user_id amount) rows) = Ok (true, msg, b) ->
  ge b Decimal_0 = true
  /\ exists a',
       lookup user_id (snd (serve (debit_account user_id amount) rows))
       = Ok (Some a')
       /\ BankAccount.balance a' = b.
Proof.
  rewrite debit_account_run.
  destruct (lookup user_id rows) as [[a |] | e] eqn:Hlook;
    try discriminate.
  destruct (negb (BankAccount.is_active a)); [discriminate |].
  destruct (lt (BankAccount.balance a) amount) eqn:Hlt; [discriminate |].
  destruct (numeric_10_2 _) as [v | e] eqn:Hnum; [| discriminate].
  apply numeric_10_2_Ok in Hnum. destruct Hnum as [_ ->].
  cbn [fst snd]. intros H. inversion H; subst. split.
  - apply stored_as_nonneg, sub_nonneg, Hlt.
  - eexists. split; [apply lookup_update_balance, Hlook | reflexivity].
Qed.

Lemma debit_success_is_nonneg_witness :
  ge (mkDecimal false 500 (-2)) Decimal_0 = true.
Proof.
  apply (debit_success_is_nonneg "u1" (mkDecimal true 1500 (-2))
           [account_of "u1" (mkDecimal true 1000 (-2)) true]
           "Transaction successful" (mkDecimal false 500 (-2))).
  reflexivity.
Defined.

(** X11.  No sequence of debits and credits changes a table in which the
    user has no active account: a missing account is never created and an
    inactive account is never written. *)
Theorem no_active_account_no_write (user_id : string)
    (ops : list operation) (rows : list BankAccount.t) :
  (forall a, lookup user_id rows = Ok (Some a) ->
             BankAccount.is_active a = false) ->
  Forall (fun rows' => rows' = rows) (history user_id ops rows).
Proof.
  intros Hno. induction ops as [| op ops IH]; simpl; [constructor |].
  assert (Hsame : snd (serve (perform user_id op) rows) = rows).
  { destruct (perform_run user_id op rows)
      as [H | (a & raw & Hlook & Hact & _)]; [exact H |].
    rewrite (Hno a Hlook) in Hact. discriminate. }
  rewrite Hsame. constructor; [reflexivity | exact IH].
Qed.

Lemma no_active_account_no_write_witness :
  Forall (fun rows' => rows' = [account_of "u1" Decimal_100_00 false])
    (history "u1" [Credit Decimal_60_00; Debit Decimal_40_00]
       [account_of "u1" Decimal_100_00 false]).
Proof.
  apply (no_active_account_no_write "u1"
           [Credit Decimal_60_00; Debit Decimal_40_00]
           [account_of "u1" Decimal_100_00 false]).
  intros a Ha. vm_compute in Ha. inversion Ha. reflexivity.
Defined.

(** X12.  On a table that satisfies its constraints, the account that
    [get_account_by_user_id] finds is the one [get_account_by_id] finds
    under its id. *)
Theorem lookups_agree (user_id : string) (rows : list BankAccount.t)
    (a : BankAccount.t) :
  table_ok rows = true ->
  fst (serve (get_account_by_user_id user_id) rows) = Ok (Some a) ->
  fst (serve (get_account_by_id (BankAccount.id a)) rows) = Ok (Some a).
Proof.
  intros Hok Hlook. apply table_ok_NoDup in Hok. destruct Hok as (Hid & _).
  apply lookup_Some, select_In in Hlook. destruct Hlook as [Hin _].
  unfold serve. rewrite get_account_by_id_run. cbn [fst table session_of].
  assert (Ha : In a (select_by_id (BankAccount.id a) rows)).
  { apply filter_In. split; [exact Hin | apply String.eqb_refl]. }
  destruct (select_by_id_at_most_one (BankAccount.id a) rows Hid)
    as [H | (r & H)]; rewrite H in Ha |- *.
  - contradiction.
  - destruct Ha as [-> | []]. reflexivity.
Qed.

Lemma lookups_agree_witness :
  fst (serve (get_account_by_id "id-u1")
             [account_of "u0" Decimal_40_00 true;
              account_of "u1" Decimal_100_00 true])
  = Ok (Some (account_of "u1" Decimal_100_00 true)).
Proof.
  apply (lookups_agree "u1"
           [account_of "u0" Decimal_40_00 true;
            account_of "u1" Decimal_100_00 true]
           (account_of "u1" Decimal_100_00 true)); reflexivity.
Defined.

Lemma lt_false_hundredths (a b : Decimal) :
  in_cents a = true -> in_cents b = true ->
  (lt a b = false <-> hundredths b <= hundredths a).
Proof.
  intros Ha Hb. pose proof (lt_hundredths a b Ha Hb) as H.
  destruct (lt a b); split; intros; try congruence; lia.
Qed.

(** X13.  For a balance and amounts of at most two fractional digits, two
    credits whose results fit the column add up: after credits of [x] and
    of [y] the persisted balance equals [balance + (x + y)], in whichever
    order the two are made. *)
Theorem credits_add_up (user_id : string) (x y : Decimal)
    (rows : list BankAccount.t) (a : BankAccount.t) :
  lookup user_id rows = Ok (Some a) ->
  BankAccount.is_active a = true ->
  in_cents (BankAccount.balance a) = true ->
  in_cents x = true ->
  in_cents y = true ->
  fits_column (add (BankAccount.balance a) x) = true ->
  fits_column (add (BankAccount.balance a) y) = true ->
  fits_column (add (add (BankAccount.balance a) x) y) = true ->
  exists a_xy a_yx,
    lookup user_id
      (snd (serve (credit_account user_id y)
                  (snd (serve (credit_account user_id x) rows))))
    = Ok (Some a_xy)
    /\ lookup user_id
         (snd (serve (credit_account user_id x)
                     (snd (serve (credit_account user_id y) rows))))
       = Ok (Some a_yx)
    /\ Decimal_eq (BankAccount.balance a_xy)
                  (add (BankAccount.balance a) (add x y)) = true
    /\ Decimal_eq (BankAccount.balance a_xy) (BankAccount.balance a_yx) = true.
Proof.
  intros Hlook Hact Hb Hx Hy Hfx Hfy Hfxy.
  assert (Hsum : hundredths (add (add (BankAccount.balance a) x) y)
                 = hundredths (BankAccount.balance a) + hundredths x
                   + hundredths y).
  { rewrite !hundredths_add; try apply in_cents_add; auto. }
  assert (Htwice : forall u v,
             in_cents u = true -> in_cents v = true ->
             fits_column (add (BankAccount.balance a) u) = true ->
             hundredths u + hundredths v = hundredths x + hundredths y ->
             exists a',
               lookup user_id
                 (snd (serve (credit_account user_id v)
                             (snd (serve (credit_account user_id u) rows))))
               = Ok (Some a')
               /\ in_cents (BankAccount.balance a') = true
               /\ hundredths (BankAccount.balance a')
                  = hundredths (BankAccount.balance a) + hundredths x
                    + hundredths y).
  { intros u v Hu Hv Hfu Huv.
    destruct (credit_step user_id u rows a Hlook Hact Hfu)
      as (Hrun1 & Hlook1 & Hact1).
    cbv zeta in Hrun1, Hlook1, Hact1. rewrite Hrun1. cbn [snd].
    set (v1 := stored_as (add (BankAccount.balance a) u)) in *.
    assert (Hh : hundredths (add v1 v)
                 = hundredths (BankAccount.balance a) + hundredths x
                   + hundredths y).
    { rewrite hundredths_add by (reflexivity || assumption).
      unfold v1. rewrite hundredths_stored_as, hundredths_add by assumption.
      lia. }
    assert (Hfit2 : fits_column (add v1 v) = true).
    { rewrite (fits_column_hundredths _
                 (add (add (BankAccount.balance a) x) y)); [exact Hfxy |].
      rewrite Hh, Hsum. reflexivity. }
    destruct (credit_step user_id v _ _ Hlook1 Hact1 Hfit2)
      as (Hrun2 & Hlook2 & _).
    cbv zeta in Hrun2, Hlook2.
    cbn [BankAccount.balance BankAccount.with_balance] in Hrun2, Hlook2.
    rewrite Hrun2. cbn [snd].
    eexists. split; [exact Hlook2 |].
    cbn [BankAccount.balance BankAccount.with_balance].
    split; [reflexivity |]. rewrite hundredths_stored_as. exact Hh. }
  destruct (Htwice x y Hx Hy Hfx eq_refl) as (a_xy & Hl1 & Hin1 & Hh1).
  destruct (Htwice y x Hy Hx Hfy ltac:(lia)) as (a_yx & Hl2 & Hin2 & Hh2).
  exists a_xy, a_yx. split; [exact Hl1 |]. split; [exact Hl2 |]. split.
  - apply (Decimal_eq_hundredths _ _ Hin1).
    + apply in_cents_add; [exact Hb | apply in_cents_add; assumption].
    + rewrite Hh1, !hundredths_add; try apply in_cents_add; auto. lia.
  - apply (Decimal_eq_hundredths _ _ Hin1 Hin2). lia.
Qed.

Lemma credits_add_up_witness :
  exists a_xy a_yx,
    lookup "u1"
      (snd (serve (credit_account "u1" (mkDecimal false 5 (-1)))
                  (snd (serve (credit_account "u1" Decimal_60_00)
                              [account_of "u1" Decimal_100_00 true]))))
    = Ok (Some a_xy)
    /\ lookup "u1"
         (snd (serve (credit_account "u1" Decimal_60_00)
                     (snd (serve (credit_account "u1" (mkDecimal false 5 (-1)))
                                 [account_of "u1" Decimal_100_00 true]))))
       = Ok (Some a_yx)
    /\ Decimal_eq (BankAccount.balance a_xy)
         (add Decimal_100_00 (add Decimal_60_00 (mkDecimal false 5 (-1))))
       = true
    /\ Decimal_eq (BankAccount.balance a_xy) (BankAccount.balance a_yx) = true.
Proof.
  apply (credits_add_up "u1" Decimal_60_00 (mkDecimal false 5 (-1))
           [account_of "u1" Decimal_100_00 true]
           (account_of "u1" Decimal_100_00 true)); reflexivity.
Defined.

(** X14.  For a balance and amounts of at most two fractional digits, two
    debits that both pass the sufficiency test and whose results fit the
    column take the sum off: the persisted balance, which the second call
    returns, equals [balance - (x + y)]. *)
Theorem debits_add_up (user_id : string) (x y : Decimal)
    (rows : list BankAccount.t) (a : BankAccount.t) :
  lookup user_id rows = Ok (Some a) ->
  BankAccount.is_active a = true ->
  in_cents (BankAccount.balance a) = true ->
  in_cents x = true ->
  in_cents y = true ->
  lt (BankAccount.balance a) x = false ->
  lt (sub (BankAccount.balance a) x) y = false ->
  fits_column (sub (BankAccount.balance a) x) = true ->
  fits_column (sub (sub (BankAccount.balance a) x) y) = true ->
  exists a',
    fst (serve (debit_account user_id y)
               (snd (serve (debit_account user_id x) rows)))
    = Ok (true, "Transaction successful", BankAccount.balance a')
    /\ lookup user_id
         (snd (serve (debit_account user_id y)
                     (snd (serve (debit_account user_id x) rows))))
       = Ok (Some a')
    /\ Decimal_eq (BankAccount.balance a')
                  (sub (BankAccount.balance a) (add x y)) = true.
Proof.
  intros Hlook Hact Hb Hx Hy Hltx Hlty Hfx Hfxy.
  destruct (debit_step user_id x rows a Hlook Hact Hltx Hfx)
    as (Hrun1 & Hlook1 & Hact1).
  cbv zeta in Hrun1, Hlook1, Hact1. rewrite Hrun1. cbn [snd].
  set (v1 := stored_as (sub (BankAccount.balance a) x)) in *.
  assert (Hv1 : hundredths v1
                = hundredths (BankAccount.balance a) - hundredths x).
  { unfold v1. rewrite hundredths_stored_as, hundredths_sub by assumption.
    reflexivity. }
  assert (Hlt2 : lt v1 y = false).
  { apply (lt_false_hundredths _ _ (in_cents_stored_as _) Hy).
    apply (lt_false_hundredths _ _ (in_cents_sub _ _ Hb Hx) Hy) in Hlty.
    rewrite hundredths_sub in Hlty by assumption.
    rewrite hundredths_stored_as, hundredths_sub by assumption. lia. }
  assert (Hh : hundredths (sub v1 y)
               = hundredths (BankAccount.balance a) - hundredths x
                 - hundredths y).
  { rewrite hundredths_sub by (reflexivity || assumption).
    rewrite Hv1. reflexivity. }
  assert (Hfit2 : fits_column (sub v1 y) = true).
  { rewrite (fits_column_hundredths _
               (sub (sub (BankAccount.balance a) x) y)); [exact Hfxy |].
    rewrite Hh, !hundredths_sub; try apply in_cents_sub; auto. }
  destruct (debit_step user_id y _ _ Hlook1 Hact1 Hlt2 Hfit2)
    as (Hrun2 & Hlook2 & _).
  cbv zeta in Hrun2, Hlook2.
  cbn [BankAccount.balance BankAccount.with_balance] in Hrun2, Hlook2.
  rewrite Hrun2. cbn [fst snd].
  eexists. split; [| split; [exact Hlook2 |]].
  - reflexivity.
  - cbn [BankAccount.balance BankAccount.with_balance].
    apply (Decimal_eq_hundredths _ _ (in_cents_stored_as _)).
    + apply in_cents_sub; [exact Hb | apply in_cents_add; assumption].
    + rewrite hundredths_stored_as, Hh, hundredths_sub, hundredths_add;
        try apply in_cents_add; auto. lia.
Qed.

Lemma debits_add_up_witness :
  exists a',
    fst (serve (debit_account "u1" Decimal_40_00)
               (snd (serve (debit_account "u1" Decimal_60_00)
                           [account_of "u1" Decimal_100_00 true])))
    = Ok (true, "Transaction successful", BankAccount.balance a')
    /\ lookup "u1"
         (snd (serve (debit_account "u1" Decimal_40_00)
                     (snd (serve (debit_account "u1" Decimal_60_00)
                                 [account_of "u1" Decimal_100_00 true]))))
       = Ok (Some a')
    /\ Decimal_eq (BankAccount.balance a')
                  (sub Decimal_100_00 (add Decimal_60_00 Decimal_40_00))
       = true.
Proof.
  apply (debits_add_up "u1" Decimal_60_00 Decimal_40_00
           [account_of "u1" Decimal_100_00 true]
           (account_of "u1" Decimal_100_00 true)); reflexivity.
Defined.

(** ** Calls in flight, in every schedule *)

Lemma update_balance_nonneg (a : BankAccount.t) (rows : list BankAccount.t) :
  row_nonneg a = true -> forallb row_nonneg rows = true ->
  forallb row_nonneg (update_balance a rows) = true.
Proof.
  intros Ha Hrows. apply forallb_forall. intros r Hr.
  unfold update_balance in Hr. apply in_map_iff in Hr.
  destruct Hr as (r0 & <- & Hin).
  destruct (String.eqb (BankAccount.id r0) (BankAccount.id a)).
  - exact Ha.
  - revert r0 Hin. apply forallb_forall, Hrows.
Qed.

(** What passes the column type from a row with [balance >= 0] is a row with
    [balance >= 0]. *)
Lemma numeric_row_nonneg (a : BankAccount.t) (b : Decimal) :
  row_nonneg a = true ->
  numeric_10_2 (BankAccount.balance a) = Ok b ->
  row_nonneg (BankAccount.with_balance a b) = true.
Proof.
  unfold row_nonneg. intros Ha Hnum.
  apply numeric_10_2_Ok in Hnum. destruct Hnum as [_ ->].
  cbn [BankAccount.balance BankAccount.with_balance].
  apply stored_as_nonneg, Ha.
Qed.

Lemma flush_nonneg (work : list pending) (rows rows' : list BankAccount.t) :
  forallb pending_nonneg work = true ->
  forallb row_nonneg rows = true ->
  flush work rows = Ok rows' ->
  forallb row_nonneg rows' = true.
Proof.
  revert rows. induction work as [| [a | a] work IH]; simpl; intros rows Hw Hr H.
  - inversion H; subst. exact Hr.
  - apply andb_true_iff in Hw. destruct Hw as [Ha Hw].
    destruct (numeric_10_2 (BankAccount.balance a)) as [b | e] eqn:Hnum;
      [| discriminate].
    destruct (conflicts a rows); [discriminate |].
    apply (IH _ Hw) in H; [exact H |].
    rewrite forallb_app, Hr. simpl.
    rewrite (numeric_row_nonneg a b Ha Hnum). reflexivity.
  - apply andb_true_iff in Hw. destruct Hw as [Ha Hw].
    destruct (numeric_10_2 (BankAccount.balance a)) as [b | e] eqn:Hnum;
      [| discriminate].
    apply (IH _ Hw) in H; [exact H |].
    apply update_balance_nonneg; [| exact Hr].
    apply (numeric_row_nonneg a b Ha Hnum).
Qed.

Lemma resume_nonneg (t : debit_task) (rows : list BankAccount.t) :
  forallb row_nonneg rows = true -> task_nonneg t = true ->
  forallb row_nonneg (snd (resume t rows)) = true
  /\ task_nonneg (fst (resume t rows)) = true.
Proof.
  intros Hrows Ht. destruct t as [user_id amount | work a | work a | r].
  - unfold resume. rewrite get_account_run. cbn [table session_of].
    destruct (select_by_user_id user_id rows) as [| a [| a' l]];
      try (split; [exact Hrows | reflexivity]).
    destruct (negb (BankAccount.is_active a));
      [split; [exact Hrows | reflexivity] |].
    destruct (lt (BankAccount.balance a) amount) eqn:Hlt;
      [split; [exact Hrows | reflexivity] |].
    unfold set_balance. simpl. split; [exact Hrows |].
    unfold row_nonneg. simpl. rewrite (sub_nonneg _ _ Hlt). reflexivity.
  - unfold resume, db_commit. cbn [table unit_of_work].
    destruct (flush work rows) as [rows' |] eqn:Hflush; cbn [fst snd table
      unit_of_work task_nonneg forallb].
    + split; [| reflexivity]. apply (flush_nonneg work rows rows' Ht Hrows Hflush).
    + split; [exact Hrows | reflexivity].
  - unfold resume, db_refresh. cbn [table unit_of_work].
    destruct (find _ rows); cbn [fst snd table]; split;
      try exact Hrows; reflexivity.
  - split; [exact Hrows | reflexivity].
Qed.

(** X15.  Two [debit_account] calls in flight, for the same or for
    different users and whatever the amounts, never persist a balance below
    zero: in every schedule of their steps, every row of a table that had
    only balances [>= 0] still has a balance [>= 0]. *)
Theorem interleaved_debits_keep_nonneg (schedule : list bool)
    (rows : list BankAccount.t) (user1 user2 : string) (x y : Decimal) :
  forallb row_nonneg rows = true ->
  forallb row_nonneg
    (shared (interleave schedule
               {| shared := rows;
                  first := Called user1 x;
                  second := Called user2 y |})) = true.
Proof.
  intros Hrows.
  assert (Hinv : forall c,
             forallb row_nonneg (shared c) = true
             /\ task_nonneg (first c) = true
             /\ task_nonneg (second c) = true ->
             forallb row_nonneg (shared (interleave schedule c)) = true).
  { induction schedule as [| which schedule IH]; intros c (Hs & H1 & H2);
      [exact Hs |].
    simpl. apply IH. unfold schedule_one.
    destruct which.
    - destruct (resume_nonneg (first c) (shared c) Hs H1) as [Hs' H1'].
      destruct (resume (first c) (shared c)) as [t rows']. auto.
    - destruct (resume_nonneg (second c) (shared c) Hs H2) as [Hs' H2'].
      destruct (resume (second c) (shared c)) as [t rows']. auto. }
  apply Hinv. auto.
Qed.

Lemma interleaved_debits_keep_nonneg_witness :
  forallb row_nonneg
    (shared (interleave [true; false; false; true; true; false]
               {| shared := [account_of "u1" Decimal_100_00 true];
                  first := Called "u1" Decimal_60_00;
                  second := Called "u1" Decimal_100_00 |})) = true.
Proof.
  apply (interleaved_debits_keep_nonneg
           [true; false; false; true; true; false]
           [account_of "u1" Decimal_100_00 true] "u1" "u1"
           Decimal_60_00 Decimal_100_00).
  reflexivity.
Defined.






